(** * Timetable generation: a shallow embedding of
      [backend/app/utils/timetable.py] (class [TimetableGenerator])

    The generator is a single greedy pass: it enumerates one-hour time
    slots for a date range, and walks that sequence once per batch,
    reserving a teacher and a classroom per class in a shared occupancy
    matrix.  The embedding keeps the shape of the Python code:

    - documents read from the store are records; a key that the code reads
      with [d["k"]] or [d.get("k", default)] and that a document may lack
      is an [option] field ([None] = key absent);
    - [datetime] values are a proleptic Gregorian ordinal and a minute of
      the day, with the library's range check on arithmetic;
    - exceptions are values ([Raise]); the instance attribute
      [self.conflicts], the [schedule_matrix] dictionary and the
      [batch_slots] list, all mutated in place by the methods, are fields
      of one state record threaded through an exception-and-state monad;
    - [while] loops are structurally recursive on an iteration budget;
      a loop that exhausts its budget yields [OutOfFuel], and the adequacy
      lemmas show that the budgets given by the callers always suffice. *)

From Stdlib Require Import ZArith Ascii String.
From stdpp Require Import gmap strings list.

Local Open Scope Z_scope.

(** ** Exceptions and results *)

Inductive exn : Type :=
| KeyError (key : string)
| IndexError (msg : string)
| ValueError (msg : string)
| OverflowError (msg : string)
| StorageError (msg : string).

(** [str(e)], as interpolated by the handler of [generate_timetable].
    [str] of a [KeyError] is the [repr] of the key. *)
Definition str_exn (e : exn) : string :=
  match e with
  | KeyError key => "'" +:+ key +:+ "'"
  | IndexError msg | ValueError msg | OverflowError msg | StorageError msg => msg
  end.

(** [OutOfFuel] is not a Python outcome: it marks a loop of the model that
    used up its iteration budget. *)
Inductive result (A : Type) : Type :=
| Ok (a : A)
| Raise (e : exn)
| OutOfFuel.
Arguments Ok {A} a.
Arguments Raise {A} e.
Arguments OutOfFuel {A}.

Definition rbind {A B : Type} (r : result A) (k : A → result B) : result B :=
  match r with
  | Ok a => k a
  | Raise e => Raise e
  | OutOfFuel => OutOfFuel
  end.

Declare Scope result_scope.
Delimit Scope result_scope with result.
Notation "'try!' x <- r ; k" := (rbind r (λ x, k))
  (at level 10, x name, r at level 100, k at level 200) : result_scope.

(** ** The parts of Python's [datetime] that the generator uses *)

Module Datetime.

(** *** Calendar arithmetic ([_pydatetime]) *)

Definition _MAXORDINAL : Z := 3652059.

Definition _DAYS_IN_MONTH (month : Z) : Z :=
  match month with
  | 1 => 31 | 2 => 28 | 3 => 31 | 4 => 30 | 5 => 31 | 6 => 30
  | 7 => 31 | 8 => 31 | 9 => 30 | 10 => 31 | 11 => 30 | 12 => 31
  | _ => -1
  end.

Definition _DAYS_BEFORE_MONTH (month : Z) : Z :=
  match month with
  | 1 => 0 | 2 => 31 | 3 => 59 | 4 => 90 | 5 => 120 | 6 => 151
  | 7 => 181 | 8 => 212 | 9 => 243 | 10 => 273 | 11 => 304 | 12 => 334
  | _ => -1
  end.

Definition _is_leap (year : Z) : bool :=
  (year mod 4 =? 0) && (negb (year mod 100 =? 0) || (year mod 400 =? 0)).

Definition _days_before_year (year : Z) : Z :=
  let y := year - 1 in y * 365 + y / 4 - y / 100 + y / 400.

Definition _days_in_month (year month : Z) : Z :=
  if (month =? 2) && _is_leap year then 29 else _DAYS_IN_MONTH month.

Definition _days_before_month (year month : Z) : Z :=
  _DAYS_BEFORE_MONTH month + (if (2 <? month) && _is_leap year then 1 else 0).

Definition _ymd2ord (year month day : Z) : Z :=
  _days_before_year year + _days_before_month year month + day.

Definition _DI400Y : Z := 146097.
Definition _DI100Y : Z := 36524.
Definition _DI4Y : Z := 1461.

Definition _ord2ymd (n : Z) : Z * Z * Z :=
  let n := n - 1 in
  let n400 := n / _DI400Y in
  let n := n mod _DI400Y in
  let year := n400 * 400 + 1 in
  let n100 := n / _DI100Y in
  let n := n mod _DI100Y in
  let n4 := n / _DI4Y in
  let n := n mod _DI4Y in
  let n1 := n / 365 in
  let n := n mod 365 in
  let year := year + n100 * 100 + n4 * 4 + n1 in
  if (n1 =? 4) || (n100 =? 4) then (year - 1, 12, 31)
  else
    let leapyear := (n1 =? 3) && (negb (n4 =? 24) || (n100 =? 3)) in
    let month := Z.shiftr (n + 50) 5 in
    let preceding :=
      _DAYS_BEFORE_MONTH month + (if (2 <? month) && leapyear then 1 else 0) in
    if n <? preceding then
      let month := month - 1 in
      let preceding :=
        preceding
        - (_DAYS_IN_MONTH month + (if (month =? 2) && leapyear then 1 else 0)) in
      (year, month, n - preceding + 1)
    else (year, month, n - preceding + 1).

(** A [datetime] whose seconds and microseconds are zero, which is all
    that parsing with ["%Y-%m-%d"] and ["%H:%M"] and adding whole hours
    and days can produce. *)
Record datetime : Type := mk_datetime {
  toordinal : Z;       (* 1 is 0001-01-01 *)
  minute_of_day : Z    (* hour * 60 + minute *)
}.

(** [datetime.combine(d, t)] *)
Definition combine (d : datetime) (t : Z) : datetime :=
  {| toordinal := toordinal d; minute_of_day := t |}.

(** [.time()], as minutes since midnight *)
Definition time (d : datetime) : Z := minute_of_day d.

Definition lt (a b : datetime) : bool :=
  (toordinal a <? toordinal b)
  || ((toordinal a =? toordinal b) && (minute_of_day a <? minute_of_day b)).

Definition le (a b : datetime) : bool :=
  (toordinal a <? toordinal b)
  || ((toordinal a =? toordinal b) && (minute_of_day a <=? minute_of_day b)).

(** [d + timedelta(minutes=delta)]; the library raises [OverflowError]
    when the result leaves 0001-01-01 .. 9999-12-31. *)
Definition add_minutes (d : datetime) (delta : Z) : result datetime :=
  let total := minute_of_day d + delta in
  let ord := toordinal d + total / 1440 in
  if (1 <=? ord) && (ord <=? _MAXORDINAL)
  then Ok {| toordinal := ord; minute_of_day := total mod 1440 |}
  else Raise (OverflowError "date value out of range").

Definition add_hours (d : datetime) (h : Z) : result datetime := add_minutes d (h * 60).
Definition add_days (d : datetime) (n : Z) : result datetime := add_minutes d (n * 1440).

(** *** Formatting ([strftime]) *)

Definition digit_char (n : Z) : ascii := ascii_of_nat (48 + Z.to_nat (n mod 10)).

Definition pad2 (n : Z) : string :=
  String (digit_char (n / 10)) (String (digit_char n) "").

(** ["%Y"] is rendered with four digits, which is what every platform
    prints for the years 1000 to 9999. *)
Definition pad4 (n : Z) : string :=
  String (digit_char (n / 1000)) (String (digit_char (n / 100)) (pad2 n)).

(** [strftime("%Y-%m-%d")] *)
Definition strftime_Ymd (d : datetime) : string :=
  let '(y, m, dd) := _ord2ymd (toordinal d) in
  pad4 y +:+ "-" +:+ pad2 m +:+ "-" +:+ pad2 dd.

(** [weekday()]: Monday is 0 *)
Definition weekday (d : datetime) : Z := (toordinal d + 6) mod 7.

(** [strftime("%A")] in the C locale *)
Definition strftime_A (d : datetime) : string :=
  match weekday d with
  | 0 => "Monday" | 1 => "Tuesday" | 2 => "Wednesday" | 3 => "Thursday"
  | 4 => "Friday" | 5 => "Saturday" | _ => "Sunday"
  end.

(** [strftime("%H:%M")] *)
Definition strftime_HM (d : datetime) : string :=
  pad2 (minute_of_day d / 60) +:+ ":" +:+ pad2 (minute_of_day d mod 60).

(** *** Parsing ([_strptime]): the format is compiled to a regular
    expression, ordered alternatives with backtracking, matched at the
    start of the input; input left over is an error.  Strings are ASCII
    here. *)

Definition cls : Type := ascii → bool.

Definition digit_of (c : ascii) : option Z :=
  let n := Z.of_nat (nat_of_ascii c) in
  if (48 <=? n) && (n <=? 57) then Some (n - 48) else None.

(** the character class [[lo-hi]] of digits *)
Definition rng (lo hi : Z) : cls := λ c,
  match digit_of c with
  | Some n => (lo <=? n) && (n <=? hi)
  | None => false
  end.

Definition space : cls := λ c, Ascii.eqb c " ".

Inductive item : Type :=
| Lit (c : ascii)
| Directive (alts : list (list cls)).

Definition re_Y : item := Directive [[rng 0 9; rng 0 9; rng 0 9; rng 0 9]].
Definition re_m : item := Directive [[rng 1 1; rng 0 2]; [rng 0 0; rng 1 9]; [rng 1 9]].
Definition re_d : item :=
  Directive [[rng 3 3; rng 0 1]; [rng 1 2; rng 0 9]; [rng 0 0; rng 1 9];
             [rng 1 9]; [space; rng 1 9]].
Definition re_H : item := Directive [[rng 2 2; rng 0 3]; [rng 0 1; rng 0 9]; [rng 0 9]].
Definition re_M : item := Directive [[rng 0 5; rng 0 9]; [rng 0 9]].

Fixpoint match_alt (alt : list cls) (s : string) : option (string * string) :=
  match alt with
  | [] => Some (EmptyString, s)
  | p :: alt' =>
      match s with
      | String c s' =>
          if p c then
            match match_alt alt' s' with
            | Some (m, r) => Some (String c m, r)
            | None => None
            end
          else None
      | EmptyString => None
      end
  end.

(** the captured groups, in order, and the unconsumed rest *)
Fixpoint re_match (items : list item) (s : string) : option (list string * string) :=
  match items with
  | [] => Some ([], s)
  | Lit c :: items' =>
      match s with
      | String c' s' => if Ascii.eqb c c' then re_match items' s' else None
      | EmptyString => None
      end
  | Directive alts :: items' =>
      (fix try_alts (alts : list (list cls)) : option (list string * string) :=
         match alts with
         | [] => None
         | alt :: alts' =>
             match match_alt alt s with
             | Some (m, r) =>
                 match re_match items' r with
                 | Some (groups, rest) => Some (m :: groups, rest)
                 | None => try_alts alts'
                 end
             | None => try_alts alts'
             end
         end) alts
  end.

(** [int(s)] for a group of digits, possibly led by a blank *)
Fixpoint int_acc (acc : Z) (s : string) : Z :=
  match s with
  | EmptyString => acc
  | String c s' =>
      match digit_of c with
      | Some n => int_acc (acc * 10 + n) s'
      | None => int_acc acc s'
      end
  end.
Definition int (s : string) : Z := int_acc 0 s.

Definition no_match (data format : string) : exn :=
  ValueError ("time data '" +:+ data +:+ "' does not match format '" +:+ format +:+ "'").

(** [datetime.strptime(s, "%Y-%m-%d")] *)
Definition strptime_Ymd (s : string) : result datetime :=
  match re_match [re_Y; Lit "-"; re_m; Lit "-"; re_d] s with
  | Some ([y; m; d], EmptyString) =>
      let year := int y in
      let month := int m in
      let day := int d in
      if year =? 0 then Raise (ValueError "year 0 is out of range")
      else if _days_in_month year month <? day
      then Raise (ValueError "day is out of range for month")
      else Ok {| toordinal := _ymd2ord year month day; minute_of_day := 0 |}
  | Some (_, rest) => Raise (ValueError ("unconverted data remains: " +:+ rest))
  | None => Raise (no_match s "%Y-%m-%d")
  end.

(** [datetime.strptime(s, "%H:%M").time()], as minutes since midnight *)
Definition strptime_HM (s : string) : result Z :=
  match re_match [re_H; Lit ":"; re_M] s with
  | Some ([h; m], EmptyString) => Ok (int h * 60 + int m)
  | Some (_, rest) => Raise (ValueError ("unconverted data remains: " +:+ rest))
  | None => Raise (no_match s "%H:%M")
  end.

End Datetime.

(** ** Records *)

(** [TimetableRequest] (a validated model: every field is present) *)
Record TimetableRequest : Type := {
  batch_ids : list string;
  start_date : string;
  end_date : string;
  working_days : list string;
  start_time : string;
  end_time : string;
  break_duration : Z
}.

(** the dictionaries built by [_generate_time_slots] *)
Record TimeSlot : Type := {
  slot_date : string;         (* "date" *)
  slot_day : string;          (* "day" *)
  slot_start_time : string;   (* "start_time" *)
  slot_end_time : string      (* "end_time" *)
}.

(** ** [_generate_time_slots] *)

Section TimeSlots.
Import Datetime.
Local Open Scope result_scope.

(** the loop [while current_time < day_end] *)
Fixpoint hour_loop (fuel : nat) (current_date : datetime) (day_name : string)
    (end_time : Z) (day_end : datetime) (current_time : datetime)
    (slots : list TimeSlot) : result (list TimeSlot) :=
  if lt current_time day_end then
    match fuel with
    | O => OutOfFuel
    | S fuel' =>
        try! slot_end <- add_hours current_time 1;
        let slots :=
          if time slot_end <=? end_time then
            slots ++ [ {| slot_date := strftime_Ymd current_date;
                          slot_day := day_name;
                          slot_start_time := strftime_HM current_time;
                          slot_end_time := strftime_HM slot_end |} ]
          else slots in
        hour_loop fuel' current_date day_name end_time day_end slot_end slots
    end
  else Ok slots.

(** the budget of [hour_loop]: every iteration moves [current_time]
    one hour closer to [day_end] *)
Definition hour_fuel (current_time day_end : datetime) : nat :=
  Z.to_nat ((toordinal day_end - toordinal current_time) * 1440
            + minute_of_day day_end - minute_of_day current_time).

(** the body of [while current_date <= end_date], up to the increment *)
Definition day_slots (request : TimetableRequest) (current_date : datetime)
    (slots : list TimeSlot) : result (list TimeSlot) :=
  let day_name := strftime_A current_date in
  if bool_decide (day_name ∈ working_days request) then
    try! start_time <- strptime_HM (start_time request);
    try! end_time <- strptime_HM (end_time request);
    let current_time := combine current_date start_time in
    let day_end := combine current_date end_time in
    hour_loop (hour_fuel current_time day_end) current_date day_name
      end_time day_end current_time slots
  else Ok slots.

(** the loop [while current_date <= end_date] *)
Fixpoint date_loop (fuel : nat) (request : TimetableRequest)
    (end_date current_date : datetime) (slots : list TimeSlot)
    : result (list TimeSlot) :=
  if le current_date end_date then
    match fuel with
    | O => OutOfFuel
    | S fuel' =>
        try! slots <- day_slots request current_date slots;
        try! current_date <- add_days current_date 1;
        date_loop fuel' request end_date current_date slots
    end
  else Ok slots.

Definition date_fuel (current_date end_date : datetime) : nat :=
  Z.to_nat (toordinal end_date - toordinal current_date + 1).

Definition _generate_time_slots (request : TimetableRequest)
    : result (list TimeSlot) :=
  let slots := [] in
  try! start_date <- strptime_Ymd (start_date request);
  try! end_date <- strptime_Ymd (end_date request);
  let current_date := start_date in
  date_loop (date_fuel current_date end_date) request end_date current_date slots.

End TimeSlots.

(** ** Documents read from the store

    Every stored document has an ["_id"]; the [*_id] fields hold
    [str(doc["_id"])].  The other keys may be missing from a document. *)

Record Teacher : Type := {
  t_id : string;
  t_subjects : option (list string);       (* "subjects" *)
  t_max_classes_per_day : option Z         (* "max_classes_per_day" *)
}.

Record Classroom : Type := {
  c_id : string
}.

Record Subject : Type := {
  s_id : string;
  s_name : option string;                  (* "name" *)
  s_classes_per_week : option Z            (* "classes_per_week" *)
}.

Record Batch : Type := {
  b_id : string;
  b_subjects : option (list string);       (* "subjects" *)
  b_sections : option (list string)        (* "sections" *)
}.

(** [TimetableSlot], the rows of the result *)
Record TimetableSlot : Type := {
  entry_day : string;
  entry_start_time : string;
  entry_end_time : string;
  entry_subject_id : string;
  entry_teacher_id : string;
  entry_classroom_id : string;
  entry_batch_id : string;
  entry_section : string
}.

(** What the storage collaborator answers to the four queries of one call
    ([_get_batches], [_get_subjects_for_batches], [_get_all_teachers],
    [_get_all_classrooms]): the documents found, or the exception of a
    query that failed. *)
Record Store : Type := {
  found_batches : exn + list Batch;
  found_subjects : exn + list Subject;
  all_teachers : exn + list Teacher;
  all_classrooms : exn + list Classroom
}.

Definition fetched {A : Type} (answer : exn + A) : result A :=
  match answer with
  | inl e => Raise e
  | inr a => Ok a
  end.

(** ** The state of one generator *)

(** Ghost history: one entry per completed call of [_try_assign_slot], with
    its arguments and what it did.  The program neither stores nor reads
    it; it is only appended to. *)
Inductive outcome : Type :=
| NoTeacher
| NoClassroom
| Assigned (teacher_id classroom_id : string).

Record Attempt : Type := {
  att_batch : Batch;
  att_subject : Subject;
  att_time_slot : TimeSlot;
  att_outcome : outcome
}.

Record GenState : Type := {
  conflicts : list string;                        (* self.conflicts *)
  teacher_schedule : gmap string (gset string);   (* schedule_matrix["teacher_schedule"] *)
  classroom_schedule : gmap string (gset string); (* schedule_matrix["classroom_schedule"] *)
  batch_slots : list TimetableSlot;               (* batch_slots of the batch in progress *)
  attempts : list Attempt                         (* ghost *)
}.

Definition initial_state : GenState :=
  {| conflicts := []; teacher_schedule := ∅; classroom_schedule := ∅;
     batch_slots := []; attempts := [] |}.

(** ** The monad: state that survives an exception *)

Definition M (A : Type) : Type := GenState → GenState * result A.

Definition ret {A : Type} (a : A) : M A := λ σ, (σ, Ok a).

Definition bind {A B : Type} (m : M A) (k : A → M B) : M B := λ σ,
  match m σ with
  | (σ', Ok a) => k a σ'
  | (σ', Raise e) => (σ', Raise e)
  | (σ', OutOfFuel) => (σ', OutOfFuel)
  end.

Definition lift {A : Type} (r : result A) : M A := λ σ, (σ, r).

Definition get : M GenState := λ σ, (σ, Ok σ).

Definition modify (f : GenState → GenState) : M unit := λ σ, (f σ, Ok tt).

Declare Scope gen_scope.
Delimit Scope gen_scope with gen.
Notation "'do!' x <- m ; k" := (bind m (λ x, k))
  (at level 10, x name, m at level 100, k at level 200) : gen_scope.

(** [d[key]] for a key that may be absent *)
Definition item_of {A : Type} (key : string) (field : option A) : result A :=
  match field with
  | Some v => Ok v
  | None => Raise (KeyError key)
  end.

Definition append_conflict (msg : string) : M unit :=
  modify (λ σ, {| conflicts := conflicts σ ++ [msg];
                  teacher_schedule := teacher_schedule σ;
                  classroom_schedule := classroom_schedule σ;
                  batch_slots := batch_slots σ;
                  attempts := attempts σ |}).

Definition with_schedule_matrix
    (matrix : gmap string (gset string) * gmap string (gset string)) (σ : GenState)
    : GenState :=
  {| conflicts := conflicts σ;
     teacher_schedule := matrix.1;
     classroom_schedule := matrix.2;
     batch_slots := batch_slots σ;
     attempts := attempts σ |}.

Definition set_schedule_matrix
    (matrix : gmap string (gset string) * gmap string (gset string)) : M unit :=
  modify (with_schedule_matrix matrix).

Definition with_batch_slots (rows : list TimetableSlot) (σ : GenState) : GenState :=
  {| conflicts := conflicts σ;
     teacher_schedule := teacher_schedule σ;
     classroom_schedule := classroom_schedule σ;
     batch_slots := rows;
     attempts := attempts σ |}.

Definition set_batch_slots (rows : list TimetableSlot) : M unit :=
  modify (with_batch_slots rows).

(** ghost *)
Definition record_attempt (a : Attempt) : M unit :=
  modify (λ σ, {| conflicts := conflicts σ;
                  teacher_schedule := teacher_schedule σ;
                  classroom_schedule := classroom_schedule σ;
                  batch_slots := batch_slots σ;
                  attempts := attempts σ ++ [a] |}).

(** [schedule[resource_id].add(slot_key)] *)
Definition add_key (resource_id slot_key : string) (schedule : gmap string (gset string))
    : result (gmap string (gset string)) :=
  match schedule !! resource_id with
  | Some busy => Ok (<[resource_id := busy ∪ {[slot_key]}]> schedule)
  | None => Raise (KeyError resource_id)
  end.

Definition mark_teacher (teacher_id slot_key : string) : M unit := λ σ,
  match add_key teacher_id slot_key (teacher_schedule σ) with
  | Ok sched => ({| conflicts := conflicts σ;
                    teacher_schedule := sched;
                    classroom_schedule := classroom_schedule σ;
                    batch_slots := batch_slots σ;
                    attempts := attempts σ |}, Ok tt)
  | Raise e => (σ, Raise e)
  | OutOfFuel => (σ, OutOfFuel)
  end.

Definition mark_classroom (classroom_id slot_key : string) : M unit := λ σ,
  match add_key classroom_id slot_key (classroom_schedule σ) with
  | Ok sched => ({| conflicts := conflicts σ;
                    teacher_schedule := teacher_schedule σ;
                    classroom_schedule := sched;
                    batch_slots := batch_slots σ;
                    attempts := attempts σ |}, Ok tt)
  | Raise e => (σ, Raise e)
  | OutOfFuel => (σ, OutOfFuel)
  end.

(** ** The generator *)

(** [f"{time_slot['date']}_{time_slot['start_time']}"] *)
Definition slot_key_of (time_slot : TimeSlot) : string :=
  slot_date time_slot +:+ "_" +:+ slot_start_time time_slot.

Definition _initialize_schedule_matrix (time_slots : list TimeSlot)
    (teachers : list Teacher) (classrooms : list Classroom)
    : gmap string (gset string) * gmap string (gset string) :=
  (foldl (λ sched teacher, <[t_id teacher := ∅]> sched) ∅ teachers,
   foldl (λ sched classroom, <[c_id classroom := ∅]> sched) ∅ classrooms).

Definition _find_available_teachers (subject : Subject) (teachers : list Teacher)
    : list Teacher :=
  let subject_id := s_id subject in
  let available_teachers :=
    foldl (λ available_teachers teacher,
             let teacher_subjects := default [] (t_subjects teacher) in
             if bool_decide (subject_id ∈ teacher_subjects)
                || bool_decide (teacher_subjects = [])
             then available_teachers ++ [teacher]
             else available_teachers)
          [] teachers in
  match available_teachers with
  | [] => match teachers with [] => [] | _ => take 1 teachers end
  | _ => available_teachers
  end.

(** [[key for key in busy if key.startswith(date)]] *)
Definition day_slots_of (date : string) (busy : gset string) : list string :=
  filter (λ key, String.prefix date key = true) (elements busy).

Fixpoint _find_available_teacher_for_slot (teachers : list Teacher)
    (time_slot : TimeSlot) (schedule : gmap string (gset string))
    : result (option Teacher) :=
  let slot_key := slot_key_of time_slot in
  match teachers with
  | [] => Ok None
  | teacher :: teachers' =>
      let teacher_id := t_id teacher in
      match schedule !! teacher_id with
      | None => Raise (KeyError teacher_id)
      | Some busy =>
          if bool_decide (slot_key ∉ busy) then
            let day_slots := day_slots_of (slot_date time_slot) busy in
            let max_classes := default 6 (t_max_classes_per_day teacher) in
            if Z.of_nat (length day_slots) <? max_classes then Ok (Some teacher)
            else _find_available_teacher_for_slot teachers' time_slot schedule
          else _find_available_teacher_for_slot teachers' time_slot schedule
      end
  end.

Fixpoint _find_available_classroom_for_slot (classrooms : list Classroom)
    (time_slot : TimeSlot) (schedule : gmap string (gset string))
    : result (option Classroom) :=
  let slot_key := slot_key_of time_slot in
  match classrooms with
  | [] => Ok None
  | classroom :: classrooms' =>
      let classroom_id := c_id classroom in
      match schedule !! classroom_id with
      | None => Raise (KeyError classroom_id)
      | Some busy =>
          if bool_decide (slot_key ∉ busy) then Ok (Some classroom)
          else _find_available_classroom_for_slot classrooms' time_slot schedule
      end
  end.

Definition no_teacher_message (name : string) (time_slot : TimeSlot) : string :=
  "No available teacher for " +:+ name +:+ " at " +:+ slot_start_time time_slot
  +:+ " on " +:+ slot_day time_slot.

Definition no_classroom_message (name : string) (time_slot : TimeSlot) : string :=
  "No available classroom for " +:+ name +:+ " at " +:+ slot_start_time time_slot
  +:+ " on " +:+ slot_day time_slot.

(** the [TimetableSlot(...)] built for one section *)
Definition section_row (batch : Batch) (subject : Subject) (time_slot : TimeSlot)
    (teacher_id classroom_id section : string) : TimetableSlot :=
  {| entry_day := slot_day time_slot;
     entry_start_time := slot_start_time time_slot;
     entry_end_time := slot_end_time time_slot;
     entry_subject_id := s_id subject;
     entry_teacher_id := teacher_id;
     entry_classroom_id := classroom_id;
     entry_batch_id := b_id batch;
     entry_section := section |}.

Section Generator.
Local Open Scope gen_scope.

Definition _try_assign_slot (batch : Batch) (subject : Subject)
    (available_teachers : list Teacher) (classrooms : list Classroom)
    (time_slot : TimeSlot) : M bool :=
  let attempt o :=
    {| att_batch := batch; att_subject := subject;
       att_time_slot := time_slot; att_outcome := o |} in
  do! σ <- get;
  do! teacher <- lift (_find_available_teacher_for_slot available_teachers time_slot
                         (teacher_schedule σ));
  match teacher with
  | None =>
      do! name <- lift (item_of "name" (s_name subject));
      do! _ <- append_conflict (no_teacher_message name time_slot);
      do! _ <- record_attempt (attempt NoTeacher);
      ret false
  | Some teacher =>
      do! classroom <- lift (_find_available_classroom_for_slot classrooms time_slot
                               (classroom_schedule σ));
      match classroom with
      | None =>
          do! name <- lift (item_of "name" (s_name subject));
          do! _ <- append_conflict (no_classroom_message name time_slot);
          do! _ <- record_attempt (attempt NoClassroom);
          ret false
      | Some classroom =>
          let slot_key := slot_key_of time_slot in
          let teacher_id := t_id teacher in
          let classroom_id := c_id classroom in
          do! _ <- mark_teacher teacher_id slot_key;
          do! _ <- mark_classroom classroom_id slot_key;
          do! σ <- get;
          do! _ <- set_batch_slots
                (foldl (λ rows section,
                          rows ++ [section_row batch subject time_slot
                                     teacher_id classroom_id section])
                       (batch_slots σ) (default ["A"] (b_sections batch)));
          do! _ <- record_attempt (attempt (Assigned teacher_id classroom_id));
          ret true
      end
  end.

(** the loop [while classes_assigned < classes_needed and
    slot_index < len(time_slots)]; it yields the final
    [(classes_assigned, slot_index)] *)
Fixpoint assign_loop (fuel : nat) (batch : Batch) (subject : Subject)
    (available_teachers : list Teacher) (classrooms : list Classroom)
    (time_slots : list TimeSlot) (classes_needed classes_assigned : Z)
    (slot_index : nat) : M (Z * nat) :=
  if (classes_assigned <? classes_needed)
     && bool_decide (slot_index < length time_slots)%nat then
    match fuel with
    | O => lift OutOfFuel
    | S fuel' =>
        do! time_slot <- lift (match time_slots !! slot_index with
                               | Some time_slot => Ok time_slot
                               | None => Raise (IndexError "list index out of range")
                               end);
        do! assigned <- _try_assign_slot batch subject available_teachers
                          classrooms time_slot;
        let classes_assigned :=
          if assigned : bool then classes_assigned + 1 else classes_assigned in
        assign_loop fuel' batch subject available_teachers classrooms time_slots
          classes_needed classes_assigned (S slot_index)
    end
  else ret (classes_assigned, slot_index).

(** [len(set(slot["date"] for slot in time_slots))] *)
Definition distinct_dates (time_slots : list TimeSlot) : Z :=
  Z.of_nat (size (list_to_set (slot_date <$> time_slots) : gset string)).

(** the first loop of [_generate_batch_timetable] *)
Definition subject_requirements (subjects : list Subject) (time_slots : list TimeSlot)
    : gmap string Z :=
  foldl (λ requirements subject,
           let subject_id := s_id subject in
           let classes_per_week := default 2 (s_classes_per_week subject) in
           let weeks := Z.max 1 (distinct_dates time_slots / 7) in
           let total_classes := classes_per_week * weeks in
           <[subject_id := total_classes]> requirements)
        ∅ subjects.

(** the second loop, [for subject in subjects], from a given
    [slot_index]; it yields the final [slot_index] *)
Fixpoint subjects_loop (batch : Batch) (requirements : gmap string Z)
    (teachers : list Teacher) (classrooms : list Classroom)
    (time_slots : list TimeSlot) (subjects : list Subject) (slot_index : nat)
    : M nat :=
  match subjects with
  | [] => ret slot_index
  | subject :: subjects' =>
      let subject_id := s_id subject in
      do! classes_needed <- lift (item_of subject_id (requirements !! subject_id));
      let available_teachers := _find_available_teachers subject teachers in
      let classes_assigned := 0 in
      do! state <- assign_loop (length time_slots - slot_index) batch subject
                     available_teachers classrooms time_slots
                     classes_needed classes_assigned slot_index;
      subjects_loop batch requirements teachers classrooms time_slots
        subjects' state.2
  end.

Definition _generate_batch_timetable (batch : Batch) (subjects : list Subject)
    (teachers : list Teacher) (classrooms : list Classroom)
    (time_slots : list TimeSlot) : M (list TimetableSlot) :=
  do! _ <- set_batch_slots [];
  let requirements := subject_requirements subjects time_slots in
  let slot_index := 0%nat in
  do! _ <- subjects_loop batch requirements teachers classrooms time_slots
             subjects slot_index;
  do! σ <- get;
  ret (batch_slots σ).

(** [[s for s in subjects if str(s["_id"]) in batch["subjects"]]]: the
    condition, and with it [batch["subjects"]], is evaluated once per
    subject, so not at all when there is none *)
Definition subjects_of_batch (batch : Batch) (subjects : list Subject)
    : result (list Subject) :=
  match subjects with
  | [] => Ok []
  | _ =>
      rbind (item_of "subjects" (b_subjects batch))
            (λ wanted, Ok (filter (λ s, s_id s ∈ wanted) subjects))
  end.

(** the loop [for batch in batches] *)
Fixpoint batches_loop (subjects : list Subject) (teachers : list Teacher)
    (classrooms : list Classroom) (time_slots : list TimeSlot)
    (batches : list Batch) (timetable_slots : list TimetableSlot)
    : M (list TimetableSlot) :=
  match batches with
  | [] => ret timetable_slots
  | batch :: batches' =>
      do! batch_subjects <- lift (subjects_of_batch batch subjects);
      do! batch_slots <- _generate_batch_timetable batch batch_subjects teachers
                           classrooms time_slots;
      batches_loop subjects teachers classrooms time_slots batches'
        (timetable_slots ++ batch_slots)
  end.

(** the [try] block of [generate_timetable] *)
Definition generate_timetable_body (request : TimetableRequest) (store : Store)
    : M (list TimetableSlot) :=
  let timetable_slots := [] in
  do! batches <- lift (fetched (found_batches store));
  do! subjects <- lift (fetched (found_subjects store));
  do! teachers <- lift (fetched (all_teachers store));
  do! classrooms <- lift (fetched (all_classrooms store));
  do! time_slots <- lift (_generate_time_slots request);
  do! _ <- set_schedule_matrix (_initialize_schedule_matrix time_slots teachers classrooms);
  batches_loop subjects teachers classrooms time_slots batches timetable_slots.

Definition failure_message (e : exn) : string :=
  "Failed to generate timetable: " +:+ str_exn e.

(** [generate_timetable]: the scheduled rows and the conflicts.  The
    method starts from an empty [self.conflicts]. *)
Definition generate_timetable (request : TimetableRequest) (store : Store)
    : option (list TimetableSlot * list string) :=
  match generate_timetable_body request store initial_state with
  | (σ, Ok timetable_slots) => Some (timetable_slots, conflicts σ)
  | (σ, Raise e) => Some ([], conflicts σ ++ [failure_message e])
  | (_, OutOfFuel) => None
  end.

End Generator.

(** ** The history of a call: attempts, conflicts, reservations *)

Definition attempt_of (batch : Batch) (subject : Subject) (time_slot : TimeSlot)
    (o : outcome) : Attempt :=
  {| att_batch := batch; att_subject := subject;
     att_time_slot := time_slot; att_outcome := o |}.

(** the message that a failed attempt appends to the conflict log *)
Definition conflict_of (a : Attempt) : option string :=
  match att_outcome a with
  | NoTeacher =>
      (λ name, no_teacher_message name (att_time_slot a)) <$> s_name (att_subject a)
  | NoClassroom =>
      (λ name, no_classroom_message name (att_time_slot a)) <$> s_name (att_subject a)
  | Assigned _ _ => None
  end.

(** A reservation is an attempt that marked a teacher and a classroom
    (lines 212-214 of the source). *)
Record Reservation : Type := {
  res_batch : Batch;
  res_subject : Subject;
  res_time_slot : TimeSlot;
  res_teacher_id : string;
  res_classroom_id : string
}.

Definition reservation_of (a : Attempt) : option Reservation :=
  match att_outcome a with
  | Assigned teacher_id classroom_id =>
      Some {| res_batch := att_batch a; res_subject := att_subject a;
              res_time_slot := att_time_slot a;
              res_teacher_id := teacher_id; res_classroom_id := classroom_id |}
  | _ => None
  end.

(** the reservations made so far, oldest first *)
Definition reservations (σ : GenState) : list Reservation :=
  omap reservation_of (attempts σ).

(** the rows of one reservation: one per section of its batch *)
Definition fan_out (r : Reservation) : list TimetableSlot :=
  map (section_row (res_batch r) (res_subject r) (res_time_slot r)
         (res_teacher_id r) (res_classroom_id r))
      (default ["A"] (b_sections (res_batch r))).

(** who is booked when: the resource, the date and the start time *)
Definition teacher_booking (r : Reservation) : string * string * string :=
  (res_teacher_id r, slot_date (res_time_slot r), slot_start_time (res_time_slot r)).

Definition classroom_booking (r : Reservation) : string * string * string :=
  (res_classroom_id r, slot_date (res_time_slot r), slot_start_time (res_time_slot r)).

(** ** One attempt, as a relation between states *)

(** the state after a failed attempt: one conflict, nothing reserved *)
Definition after_conflict (σ : GenState) (msg : string) (a : Attempt) : GenState :=
  {| conflicts := conflicts σ ++ [msg];
     teacher_schedule := teacher_schedule σ;
     classroom_schedule := classroom_schedule σ;
     batch_slots := batch_slots σ;
     attempts := attempts σ ++ [a] |}.

(** the state after a reservation of [teacher_id] and [classroom_id] *)
Definition after_reservation (σ : GenState) (batch : Batch) (subject : Subject)
    (time_slot : TimeSlot) (teacher_id classroom_id : string)
    (teacher_busy classroom_busy : gset string) : GenState :=
  {| conflicts := conflicts σ;
     teacher_schedule :=
       <[teacher_id := teacher_busy ∪ {[slot_key_of time_slot]}]> (teacher_schedule σ);
     classroom_schedule :=
       <[classroom_id := classroom_busy ∪ {[slot_key_of time_slot]}]> (classroom_schedule σ);
     batch_slots :=
       batch_slots σ
       ++ map (section_row batch subject time_slot teacher_id classroom_id)
              (default ["A"] (b_sections batch));
     attempts :=
       attempts σ ++ [attempt_of batch subject time_slot (Assigned teacher_id classroom_id)] |}.

(** The four ways in which [_try_assign_slot] ends ([try_assign_step]
    below shows that there is no other): an exception before any change,
    no free teacher, no free classroom, a reservation. *)
Inductive attempt_step (batch : Batch) (subject : Subject)
    (available_teachers : list Teacher) (classrooms : list Classroom)
    (time_slot : TimeSlot) (σ : GenState) : GenState → result bool → Prop :=
| step_raise e :
    attempt_step batch subject available_teachers classrooms time_slot σ σ (Raise e)
| step_no_teacher name :
    _find_available_teacher_for_slot available_teachers time_slot (teacher_schedule σ)
      = Ok None →
    s_name subject = Some name →
    attempt_step batch subject available_teachers classrooms time_slot σ
      (after_conflict σ (no_teacher_message name time_slot)
         (attempt_of batch subject time_slot NoTeacher))
      (Ok false)
| step_no_classroom teacher name :
    _find_available_teacher_for_slot available_teachers time_slot (teacher_schedule σ)
      = Ok (Some teacher) →
    _find_available_classroom_for_slot classrooms time_slot (classroom_schedule σ)
      = Ok None →
    s_name subject = Some name →
    attempt_step batch subject available_teachers classrooms time_slot σ
      (after_conflict σ (no_classroom_message name time_slot)
         (attempt_of batch subject time_slot NoClassroom))
      (Ok false)
| step_assigned teacher classroom teacher_busy classroom_busy :
    _find_available_teacher_for_slot available_teachers time_slot (teacher_schedule σ)
      = Ok (Some teacher) →
    _find_available_classroom_for_slot classrooms time_slot (classroom_schedule σ)
      = Ok (Some classroom) →
    teacher_schedule σ !! t_id teacher = Some teacher_busy →
    classroom_schedule σ !! c_id classroom = Some classroom_busy →
    attempt_step batch subject available_teachers classrooms time_slot σ
      (after_reservation σ batch subject time_slot (t_id teacher) (c_id classroom)
         teacher_busy classroom_busy)
      (Ok true).

(** ** Whole calls *)

(** the state in which the loop over the batches starts *)
Definition started_state (time_slots : list TimeSlot) (teachers : list Teacher)
    (classrooms : list Classroom) : GenState :=
  with_schedule_matrix (_initialize_schedule_matrix time_slots teachers classrooms)
    initial_state.

(** A call either fails before the first batch, with the state untouched,
    or runs the loop over the batches on the fetched snapshot. *)
Inductive call_run (request : TimetableRequest) (store : Store)
    : GenState → result (list TimetableSlot) → Prop :=
| run_early_failure e :
    call_run request store initial_state (Raise e)
| run_batches batches subjects teachers classrooms time_slots :
    found_batches store = inr batches →
    found_subjects store = inr subjects →
    all_teachers store = inr teachers →
    all_classrooms store = inr classrooms →
    _generate_time_slots request = Ok time_slots →
    call_run request store
      (batches_loop subjects teachers classrooms time_slots batches []
         (started_state time_slots teachers classrooms)).1
      (batches_loop subjects teachers classrooms time_slots batches []
         (started_state time_slots teachers classrooms)).2.

(** The states that a call goes through once the matrix is built: the
    state in which the loop over the batches starts, the state after any
    call of [_try_assign_slot] with candidates from the roster and a slot
    of the sequence, and the state after the reset of [batch_slots]. *)
Inductive reachable (teachers : list Teacher) (classrooms : list Classroom)
    (time_slots : list TimeSlot) : GenState → Prop :=
| reachable_start :
    reachable teachers classrooms time_slots
      (started_state time_slots teachers classrooms)
| reachable_attempt batch subject available_teachers time_slot σ :
    available_teachers ⊆ teachers →
    time_slot ∈ time_slots →
    reachable teachers classrooms time_slots σ →
    reachable teachers classrooms time_slots
      (_try_assign_slot batch subject available_teachers classrooms time_slot σ).1
| reachable_reset rows σ :
    reachable teachers classrooms time_slots σ →
    reachable teachers classrooms time_slots (with_batch_slots rows σ).

(** ** Properties of a state *)

(** the conflict log holds the messages of the failed attempts, in order *)
Definition conflicts_logged (σ : GenState) : Prop :=
  conflicts σ = omap conflict_of (attempts σ).

(** [slot_key] is in the set that [schedule] holds for [resource_id] *)
Definition marked (schedule : gmap string (gset string)) (resource_id slot_key : string)
    : Prop :=
  ∃ busy, schedule !! resource_id = Some busy ∧ slot_key ∈ busy.

(** no teacher and no classroom is booked twice for a date and start
    time, and the matrix records every reservation *)
Definition bookings_unique (σ : GenState) : Prop :=
  NoDup (teacher_booking <$> reservations σ)
  ∧ NoDup (classroom_booking <$> reservations σ)
  ∧ ∀ r, r ∈ reservations σ →
      marked (teacher_schedule σ) (res_teacher_id r) (slot_key_of (res_time_slot r))
      ∧ marked (classroom_schedule σ) (res_classroom_id r) (slot_key_of (res_time_slot r)).

(** the rows of the batches done, [timetable_slots], and of the batch in
    progress are the fan-outs of the reservations *)
Definition rows_accounted (timetable_slots : list TimetableSlot) (σ : GenState) : Prop :=
  timetable_slots ++ batch_slots σ = flat_map fan_out (reservations σ).

(** a slot whose date is the formatted date of some day *)
Definition dated (slot : TimeSlot) : Prop :=
  ∃ d, slot_date slot = Datetime.strftime_Ymd d.

(** the number of slot keys of [busy] that lie on [date], counted as
    [_find_available_teacher_for_slot] counts them *)
Definition day_load (date : string) (busy : gset string) : nat :=
  length (day_slots_of date busy).

(** every teacher of the roster is within the cap that the scan uses,
    [max_classes_per_day] or 6, on every date *)
Definition within_caps (teachers : list Teacher) (schedule : gmap string (gset string))
    : Prop :=
  ∀ teacher busy d,
    teacher ∈ teachers →
    schedule !! t_id teacher = Some busy →
    Z.of_nat (day_load (Datetime.strftime_Ymd d) busy)
    ≤ default 6 (t_max_classes_per_day teacher).

(** ** Candidate teachers *)

(** the subject's id is among the teacher's subjects, or the teacher has
    no subject list or an empty one *)
Definition qualifies (subject : Subject) (teacher : Teacher) : Prop :=
  s_id subject ∈ default [] (t_subjects teacher) ∨ default [] (t_subjects teacher) = [].

#[local] Instance qualifies_dec subject teacher : Decision (qualifies subject teacher).
Proof. unfold qualifies. apply _. Defined.

(** ** The slots of a window, as the specification describes them *)



Definition midnight (ordinal : Z) : Datetime.datetime :=
  {| Datetime.toordinal := ordinal; Datetime.minute_of_day := 0 |}.


(** ** Sample data *)

Definition sample_request : TimetableRequest :=
  {| batch_ids := ["b1"]; start_date := "2024-01-15"; end_date := "2024-01-16";
     working_days := ["Monday"]; start_time := "09:00"; end_time := "11:00";
     break_duration := 60 |}.

Definition math : Subject :=
  {| s_id := "s1"; s_name := Some "Math"; s_classes_per_week := Some 1 |}.

Definition physics : Subject :=
  {| s_id := "s2"; s_name := Some "Physics"; s_classes_per_week := None |}.

Definition teacher_t1 : Teacher :=
  {| t_id := "t1"; t_subjects := Some ["s1"]; t_max_classes_per_day := Some 1 |}.

Definition teacher_t2 : Teacher :=
  {| t_id := "t2"; t_subjects := Some []; t_max_classes_per_day := Some 2 |}.

Definition room_c1 : Classroom := {| c_id := "c1" |}.

Definition batch_b1 : Batch :=
  {| b_id := "b1"; b_subjects := Some ["s1"; "s2"]; b_sections := Some ["A"; "B"] |}.

(** a batch document without the ["subjects"] key *)
Definition batch_b2 : Batch :=
  {| b_id := "b2"; b_subjects := None; b_sections := None |}.

Definition batch_no_sections : Batch :=
  {| b_id := "b3"; b_subjects := Some ["s1"]; b_sections := Some [] |}.

Definition monday_09 : TimeSlot :=
  {| slot_date := "2024-01-15"; slot_day := "Monday";
     slot_start_time := "09:00"; slot_end_time := "10:00" |}.

Definition monday_10 : TimeSlot :=
  {| slot_date := "2024-01-15"; slot_day := "Monday";
     slot_start_time := "10:00"; slot_end_time := "11:00" |}.

Definition sample_store : Store :=
  {| found_batches := inr [batch_b1];
     found_subjects := inr [math; physics];
     all_teachers := inr [teacher_t1];
     all_classrooms := inr [room_c1] |}.

(** the same snapshot, with a malformed second batch *)
Definition malformed_store : Store :=
  {| found_batches := inr [batch_b1; batch_b2];
     found_subjects := inr [math; physics];
     all_teachers := inr [teacher_t1];
     all_classrooms := inr [room_c1] |}.

Definition sample_state : GenState :=
  started_state [monday_09; monday_10] [teacher_t1] [room_c1].

(** [sample_state] after Math was given to [t1] in [c1] on Monday at 09:00 *)
Definition busy_state : GenState :=
  (_try_assign_slot batch_b1 math [teacher_t1] [room_c1] monday_09 sample_state).1.

(** a window that ends shortly before midnight *)
Definition late_request : TimetableRequest :=
  {| batch_ids := ["b1"]; start_date := "2024-01-15"; end_date := "2024-01-15";
     working_days := ["Monday"]; start_time := "23:30"; end_time := "23:59";
     break_duration := 60 |}.

(** ** The route [generate_timetable] of [routes/timetable.py]

    The body of the handler, once the caller is authenticated. *)

(** [TimetableResponse] *)
Record TimetableResponse : Type := {
  resp_success : bool;
  resp_message : string;
  resp_timetable : list TimetableSlot;
  resp_conflicts : list string
}.

Inductive http (A : Type) : Type :=
| Respond (body : A)
| HTTPException (status_code : Z) (detail : string).
Arguments Respond {A} body.
Arguments HTTPException {A} status_code detail.

(** the call [await generator.generate_timetable(request)] on a fresh
    generator, as a result *)
Definition call_generator (request : TimetableRequest) (store : Store)
    : result (list TimetableSlot * list string) :=
  match generate_timetable request store with
  | Some answer => Ok answer
  | None => OutOfFuel
  end.

(** [len(conflicts) == 0] *)
Definition no_conflict (conflicts : list string) : bool :=
  bool_decide (length conflicts = 0%nat).

Definition route_generate_timetable (request : TimetableRequest) (store : Store)
    : option (http TimetableResponse) :=
  match call_generator request store with
  | Ok (timetable_slots, conflicts) =>
      Some (Respond
              {| resp_success := no_conflict conflicts;
                 resp_message :=
                   if no_conflict conflicts then "Timetable generated successfully"
                   else "Timetable generated with conflicts";
                 resp_timetable := timetable_slots;
                 resp_conflicts := conflicts |})
  | Raise e =>
      Some (HTTPException 500 ("Failed to generate timetable: " +:+ str_exn e))
  | OutOfFuel => None
  end.

(** ** Notions used by the further properties *)

(** the test of [_find_available_teacher_for_slot] on one teacher: the
    teacher has an entry in the matrix, the slot key is not in it, and the
    keys of the slot's date are fewer than the cap *)
Definition teacher_free (schedule : gmap string (gset string)) (time_slot : TimeSlot)
    (teacher : Teacher) : Prop :=
  ∃ busy, schedule !! t_id teacher = Some busy
          ∧ (slot_key_of time_slot ∉ busy)
          ∧ (Z.of_nat (length (day_slots_of (slot_date time_slot) busy))
             < default 6 (t_max_classes_per_day teacher)).

#[local] Instance teacher_free_dec schedule time_slot teacher :
  Decision (teacher_free schedule time_slot teacher).
Proof.
  unfold teacher_free. destruct (schedule !! t_id teacher) as [busy|].
  - destruct (decide ((slot_key_of time_slot ∉ busy)
                      ∧ (Z.of_nat (length (day_slots_of (slot_date time_slot) busy))
                         < default 6 (t_max_classes_per_day teacher)))) as [Hfree|Hbusy].
    + left. by exists busy.
    + right. intros (busy' & [= <-] & Hfree). by apply Hbusy.
  - right. by intros (busy & Hbusy & _).
Defined.

(** the test of [_find_available_classroom_for_slot] on one classroom *)
Definition classroom_free (schedule : gmap string (gset string)) (time_slot : TimeSlot)
    (classroom : Classroom) : Prop :=
  ∃ busy, schedule !! c_id classroom = Some busy ∧ slot_key_of time_slot ∉ busy.

#[local] Instance classroom_free_dec schedule time_slot classroom :
  Decision (classroom_free schedule time_slot classroom).
Proof.
  unfold classroom_free. destruct (schedule !! c_id classroom) as [busy|].
  - destruct (decide (slot_key_of time_slot ∉ busy)) as [Hfree|Hbusy].
    + left. by exists busy.
    + right. intros (busy' & [= <-] & Hfree). by apply Hbusy.
  - right. by intros (busy & Hbusy & _).
Defined.

(** every key of [old] is a key of [new], with a set that holds at least
    the slot keys it held, and [new] has no other key *)
Definition grown_from (old new : gmap string (gset string)) : Prop :=
  dom new = dom old
  ∧ ∀ resource_id busy, old !! resource_id = Some busy →
      ∃ busy', new !! resource_id = Some busy' ∧ busy ⊆ busy'.

(** the matrix has an entry for every teacher and every classroom *)
Definition matrix_covers (teachers : list Teacher) (classrooms : list Classroom)
    (σ : GenState) : Prop :=
  (∀ teacher, teacher ∈ teachers → is_Some (teacher_schedule σ !! t_id teacher))
  ∧ (∀ classroom, classroom ∈ classrooms →
       is_Some (classroom_schedule σ !! c_id classroom)).

(** the exceptions that a call can end with *)
Definition call_exception (request : TimetableRequest) (store : Store) (e : exn) : Prop :=
  found_batches store = inl e
  ∨ found_subjects store = inl e
  ∨ all_teachers store = inl e
  ∨ all_classrooms store = inl e
  ∨ _generate_time_slots request = Raise e
  ∨ e = KeyError "subjects"
  ∨ e = KeyError "name".

(** [classes_per_week * weeks] of one subject *)
Definition total_classes (time_slots : list TimeSlot) (subject : Subject) : Z :=
  default 2 (s_classes_per_week subject) * Z.max 1 (distinct_dates time_slots / 7).


(** [subject] is a fetched subject whose id the fetched batch [batch]
    lists under ["subjects"] *)
Definition listed (batches : list Batch) (subjects : list Subject)
    (batch : Batch) (subject : Subject) : Prop :=
  batch ∈ batches ∧ subject ∈ subjects
  ∧ ∃ wanted, b_subjects batch = Some wanted ∧ s_id subject ∈ wanted.

(** a reservation of a listed subject of a fetched batch, with a teacher
    among the candidates of the subject, a classroom of the list and a slot
    of the sequence *)
Definition reservation_of_snapshot (batches : list Batch) (subjects : list Subject)
    (teachers : list Teacher) (classrooms : list Classroom)
    (time_slots : list TimeSlot) (r : Reservation) : Prop :=
  listed batches subjects (res_batch r) (res_subject r)
  ∧ (∃ teacher, teacher ∈ _find_available_teachers (res_subject r) teachers
                ∧ res_teacher_id r = t_id teacher)
  ∧ (∃ classroom, classroom ∈ classrooms ∧ res_classroom_id r = c_id classroom)
  ∧ res_time_slot r ∈ time_slots.

(** every reservation made so far is of the snapshot *)
Definition from_snapshot (batches : list Batch) (subjects : list Subject)
    (teachers : list Teacher) (classrooms : list Classroom)
    (time_slots : list TimeSlot) (σ : GenState) : Prop :=
  Forall (reservation_of_snapshot batches subjects teachers classrooms time_slots)
         (reservations σ).

(** a row made of a listed subject of a fetched batch, a candidate teacher
    of the subject, a classroom, a slot of the sequence and a section of
    the batch *)
Definition row_of_snapshot (batches : list Batch) (subjects : list Subject)
    (teachers : list Teacher) (classrooms : list Classroom)
    (time_slots : list TimeSlot) (row : TimetableSlot) : Prop :=
  ∃ batch subject teacher classroom time_slot,
    listed batches subjects batch subject
    ∧ teacher ∈ _find_available_teachers subject teachers
    ∧ classroom ∈ classrooms ∧ time_slot ∈ time_slots
    ∧ entry_section row ∈ default ["A"] (b_sections batch)
    ∧ row = section_row batch subject time_slot (t_id teacher) (c_id classroom)
              (entry_section row).

(** ** More sample data *)

(** a teacher document without ["max_classes_per_day"] and ["subjects"] *)
Definition teacher_t3 : Teacher :=
  {| t_id := "t3"; t_subjects := None; t_max_classes_per_day := None |}.

Definition room_c2 : Classroom := {| c_id := "c2" |}.

Definition store_without_teachers : Store :=
  {| found_batches := inr [batch_b1];
     found_subjects := inr [math; physics];
     all_teachers := inr [];
     all_classrooms := inr [room_c1] |}.

Definition store_with_t3 : Store :=
  {| found_batches := inr [batch_b1];
     found_subjects := inr [math; physics];
     all_teachers := inr [teacher_t3];
     all_classrooms := inr [room_c1] |}.

(** a matrix for [t2] and [c1], nothing marked *)
Definition sample_state_t2 : GenState :=
  started_state [monday_09; monday_10] [teacher_t2] [room_c1].

(** a range whose end is before its start *)
Definition inverted_request : TimetableRequest :=
  {| batch_ids := ["b1"]; start_date := "2024-01-16"; end_date := "2024-01-15";
     working_days := ["Monday"]; start_time := "09:00"; end_time := "11:00";
     break_duration := 60 |}.

(** a range without a permitted day: 2024-01-16 is a Tuesday *)
Definition tuesday_request : TimetableRequest :=
  {| batch_ids := ["b1"]; start_date := "2024-01-16"; end_date := "2024-01-16";
     working_days := ["Monday"]; start_time := "09:00"; end_time := "11:00";
     break_duration := 60 |}.

(** Tuesday 2024-01-16 alone, Monday permitted, and times that are not
    times *)
Definition garbled_request : TimetableRequest :=
  {| batch_ids := ["b1"]; start_date := "2024-01-16"; end_date := "2024-01-16";
     working_days := ["Monday"]; start_time := "9am"; end_time := "noon";
     break_duration := 60 |}.

(** the last day that [datetime] has, a Friday *)
Definition last_day_request : TimetableRequest :=
  {| batch_ids := ["b1"]; start_date := "9999-12-31"; end_date := "9999-12-31";
     working_days := ["Monday"]; start_time := "09:00"; end_time := "11:00";
     break_duration := 60 |}.

(** ** Basic facts *)

Lemma foldl_snoc_map {A B : Type} (f : A → B) (l : list A) (acc : list B) :
  foldl (λ rows x, rows ++ [f x]) acc l = acc ++ map f l.
Proof.
  revert acc. induction l as [|x l IH]; intros acc; simpl.
  - by rewrite app_nil_r.
  - rewrite IH. by rewrite <- app_assoc.
Qed.

(** ** The two slot-scoped scans *)

Lemma find_teacher_Some teachers time_slot schedule teacher :
  _find_available_teacher_for_slot teachers time_slot schedule = Ok (Some teacher) →
  teacher ∈ teachers
  ∧ (∃ busy, schedule !! t_id teacher = Some busy
       ∧ (slot_key_of time_slot ∉ busy)
       ∧ (Z.of_nat (length (day_slots_of (slot_date time_slot) busy))
          < default 6 (t_max_classes_per_day teacher))).
Proof.
  induction teachers as [|t ts IH]; simpl; [discriminate|].
  destruct (schedule !! t_id t) as [busy|] eqn:Hbusy; [|discriminate].
  case_bool_decide as Hfree.
  - destruct (Z.ltb_spec (Z.of_nat (length (day_slots_of (slot_date time_slot) busy)))
                (default 6 (t_max_classes_per_day t))) as [Hlt|Hge].
    + intros [= <-]. split; [left|]. eauto.
    + intros H. destruct (IH H) as [? ?]. split; [by right|done].
  - intros H. destruct (IH H) as [? ?]. split; [by right|done].
Qed.

Lemma find_teacher_fuel teachers time_slot schedule :
  _find_available_teacher_for_slot teachers time_slot schedule ≠ OutOfFuel.
Proof.
  induction teachers as [|t ts IH]; simpl; [done|].
  destruct (schedule !! t_id t); [|done].
  case_bool_decide; [|done]. by case_match.
Qed.

Lemma find_classroom_Some classrooms time_slot schedule classroom :
  _find_available_classroom_for_slot classrooms time_slot schedule = Ok (Some classroom) →
  classroom ∈ classrooms
  ∧ (∃ busy, schedule !! c_id classroom = Some busy ∧ slot_key_of time_slot ∉ busy).
Proof.
  induction classrooms as [|c cs IH]; simpl; [discriminate|].
  destruct (schedule !! c_id c) as [busy|] eqn:Hbusy; [|discriminate].
  case_bool_decide as Hfree.
  - intros [= <-]. split; [left|]. eauto.
  - intros H. destruct (IH H) as [? ?]. split; [by right|done].
Qed.

Lemma find_classroom_fuel classrooms time_slot schedule :
  _find_available_classroom_for_slot classrooms time_slot schedule ≠ OutOfFuel.
Proof.
  induction classrooms as [|c cs IH]; simpl; [done|].
  destruct (schedule !! c_id c); [|done]. by case_bool_decide.
Qed.

(** ** One attempt: what [_try_assign_slot] can do *)

Lemma try_assign_step batch subject available_teachers classrooms time_slot σ :
  attempt_step batch subject available_teachers classrooms time_slot σ
    (_try_assign_slot batch subject available_teachers classrooms time_slot σ).1
    (_try_assign_slot batch subject available_teachers classrooms time_slot σ).2.
Proof.
  unfold _try_assign_slot, bind, get, lift, ret; simpl.
  destruct (_find_available_teacher_for_slot _ _ _) as [[teacher|]|e|] eqn:Ht; simpl.
  - destruct (_find_available_classroom_for_slot _ _ _) as [[classroom|]|e|] eqn:Hc; simpl.
    + destruct (find_teacher_Some _ _ _ _ Ht) as (_ & tb & Htb & _).
      destruct (find_classroom_Some _ _ _ _ Hc) as (_ & cb & Hcb & _).
      unfold mark_teacher, mark_classroom, add_key; simpl.
      rewrite Htb; simpl. rewrite Hcb; simpl.
      rewrite foldl_snoc_map.
      by eapply (step_assigned _ _ _ _ _ _ teacher classroom).
    + destruct (s_name subject) as [name|] eqn:Hn; simpl.
      * by eapply step_no_classroom.
      * constructor.
    + constructor.
    + by destruct (find_classroom_fuel _ _ _ Hc).
  - destruct (s_name subject) as [name|] eqn:Hn; simpl.
    + by eapply step_no_teacher.
    + constructor.
  - constructor.
  - by destruct (find_teacher_fuel _ _ _ Ht).
Qed.

Lemma try_assign_inv batch subject available_teachers classrooms time_slot σ σ' r :
  _try_assign_slot batch subject available_teachers classrooms time_slot σ = (σ', r) →
  attempt_step batch subject available_teachers classrooms time_slot σ σ' r.
Proof.
  intros H. pose proof (try_assign_step batch subject available_teachers classrooms
                          time_slot σ) as Hs.
  by rewrite H in Hs.
Qed.

Lemma try_assign_fuel batch subject available_teachers classrooms time_slot σ :
  (_try_assign_slot batch subject available_teachers classrooms time_slot σ).2 ≠ OutOfFuel.
Proof.
  by destruct (try_assign_step batch subject available_teachers classrooms time_slot σ).
Qed.

(** ** Candidate teachers are roster teachers *)

Lemma candidates_foldl subject teachers acc :
  foldl (λ available_teachers teacher,
           let teacher_subjects := default [] (t_subjects teacher) in
           if bool_decide (s_id subject ∈ teacher_subjects)
              || bool_decide (teacher_subjects = [])
           then available_teachers ++ [teacher]
           else available_teachers)
        acc teachers
  = acc ++ filter (qualifies subject) teachers.
Proof.
  revert acc. induction teachers as [|t ts IH]; intros acc; simpl.
  - by rewrite app_nil_r.
  - rewrite IH. unfold filter at 2; simpl.
    destruct (decide (qualifies subject t)) as [Hq|Hq].
    + assert (bool_decide (s_id subject ∈ default [] (t_subjects t))
              || bool_decide (default [] (t_subjects t) = []) = true) as ->.
      { destruct Hq; apply orb_true_iff; [left|right]; by apply bool_decide_eq_true. }
      by rewrite <- app_assoc.
    + assert (bool_decide (s_id subject ∈ default [] (t_subjects t))
              || bool_decide (default [] (t_subjects t) = []) = false) as ->; [|done].
      apply orb_false_iff. split; apply bool_decide_eq_false; intros ?; apply Hq;
        [by left|by right].
Qed.

Lemma find_available_teachers_eq subject teachers :
  _find_available_teachers subject teachers =
    match filter (qualifies subject) teachers with
    | [] => take 1 teachers
    | qualified => qualified
    end.
Proof.
  unfold _find_available_teachers. rewrite candidates_foldl. simpl.
  destruct (filter (qualifies subject) teachers); [|done].
  by destruct teachers.
Qed.

Lemma find_available_teachers_subseteq subject teachers :
  _find_available_teachers subject teachers ⊆ teachers.
Proof.
  rewrite find_available_teachers_eq. intros t Ht.
  destruct (filter (qualifies subject) teachers) as [|q qs] eqn:Hf.
  - destruct teachers as [|t0 ts]; simpl in Ht; [done|].
    apply list_elem_of_singleton in Ht as ->. left.
  - rewrite <- Hf in Ht. by apply list_elem_of_filter in Ht as [_ ?].
Qed.

(** ** The loops of one batch *)

Lemma assign_loop_unfold fuel batch subject available_teachers classrooms time_slots
    classes_needed classes_assigned slot_index :
  assign_loop fuel batch subject available_teachers classrooms time_slots
    classes_needed classes_assigned slot_index =
  if (classes_assigned <? classes_needed)
     && bool_decide (slot_index < length time_slots)%nat then
    match fuel with
    | O => lift OutOfFuel
    | S fuel' =>
        bind (lift (match time_slots !! slot_index with
                    | Some time_slot => Ok time_slot
                    | None => Raise (IndexError "list index out of range")
                    end))
          (λ time_slot,
             bind (_try_assign_slot batch subject available_teachers classrooms time_slot)
               (λ assigned : bool,
                  assign_loop fuel' batch subject available_teachers classrooms
                    time_slots classes_needed
                    (if assigned then classes_assigned + 1 else classes_assigned)
                    (S slot_index)))
    end
  else ret (classes_assigned, slot_index).
Proof. by destruct fuel. Qed.

(** The budget [len(time_slots) - slot_index] is enough: the cursor moves
    at every iteration. *)
Lemma assign_loop_fuel fuel batch subject available_teachers classrooms time_slots
    classes_needed classes_assigned slot_index σ :
  (length time_slots - slot_index ≤ fuel)%nat →
  (assign_loop fuel batch subject available_teachers classrooms time_slots
     classes_needed classes_assigned slot_index σ).2 ≠ OutOfFuel.
Proof.
  revert classes_assigned slot_index σ.
  induction fuel as [|fuel IH]; intros a i σ Hfuel; rewrite assign_loop_unfold.
  - destruct (a <? classes_needed); simpl; [|done].
    case_bool_decide; [lia|done].
  - destruct (a <? classes_needed); simpl; [|done].
    case_bool_decide as Hi; [|done].
    unfold bind, lift.
    destruct (time_slots !! i) as [time_slot|]; [|done].
    pose proof (try_assign_fuel batch subject available_teachers classrooms time_slot σ)
      as Hstep.
    destruct (_try_assign_slot _ _ _ _ _ σ) as [σ1 [b|e|]]; simpl in *; [|done|done].
    apply IH. lia.
Qed.

Lemma subjects_loop_fuel batch requirements teachers classrooms time_slots subjects
    slot_index σ :
  (subjects_loop batch requirements teachers classrooms time_slots subjects
     slot_index σ).2 ≠ OutOfFuel.
Proof.
  revert slot_index σ. induction subjects as [|subject subjects IH]; intros i σ; [done|].
  simpl. unfold bind at 1, lift at 1.
  destruct (requirements !! s_id subject) as [needed|]; simpl; [|done].
  unfold bind.
  pose proof (assign_loop_fuel (length time_slots - i) batch subject
                (_find_available_teachers subject teachers) classrooms time_slots
                needed 0 i σ (le_n _)) as Hloop.
  destruct (assign_loop _ _ _ _ _ _ _ _ _ σ) as [σ1 [[a i']|e|]]; simpl in *;
    [apply IH|done|done].
Qed.

Lemma generate_batch_fuel batch subjects teachers classrooms time_slots σ :
  (_generate_batch_timetable batch subjects teachers classrooms time_slots σ).2
  ≠ OutOfFuel.
Proof.
  unfold _generate_batch_timetable, bind, set_batch_slots, modify, get, ret; simpl.
  match goal with
  | |- context [subjects_loop ?b ?rq ?t ?c ?ts ?ss ?i ?s] =>
      pose proof (subjects_loop_fuel b rq t c ts ss i s) as Hloop;
      destruct (subjects_loop b rq t c ts ss i s) as [σ1 [i'|e|]]
  end; simpl in *; done.
Qed.

Lemma batches_loop_fuel subjects teachers classrooms time_slots batches
    timetable_slots σ :
  (batches_loop subjects teachers classrooms time_slots batches timetable_slots σ).2
  ≠ OutOfFuel.
Proof.
  revert timetable_slots σ. induction batches as [|batch batches IH]; intros acc σ;
    [done|].
  simpl. unfold bind at 1, lift at 1.
  destruct (subjects_of_batch batch subjects) as [batch_subjects|e|] eqn:Hsub; simpl.
  - unfold bind.
    pose proof (generate_batch_fuel batch batch_subjects teachers classrooms time_slots σ)
      as Hbatch.
    destruct (_generate_batch_timetable _ _ _ _ _ σ) as [σ1 [rows|e|]]; simpl in *;
      [apply IH|done|done].
  - done.
  - unfold subjects_of_batch in Hsub. destruct subjects; [done|].
    by destruct (b_subjects batch).
Qed.

(** ** The time slot enumerator: budgets and the shape of the dates *)

Section TimeSlotFacts.
Import Datetime.

Lemma lt_spec a b :
  lt a b = true ↔
  toordinal a < toordinal b
  ∨ (toordinal a = toordinal b ∧ minute_of_day a < minute_of_day b).
Proof.
  unfold lt. rewrite orb_true_iff, andb_true_iff, !Z.ltb_lt, Z.eqb_eq. tauto.
Qed.

Lemma le_spec a b :
  le a b = true ↔
  toordinal a < toordinal b
  ∨ (toordinal a = toordinal b ∧ minute_of_day a ≤ minute_of_day b).
Proof.
  unfold le. rewrite orb_true_iff, andb_true_iff, Z.ltb_lt, Z.leb_le, Z.eqb_eq. tauto.
Qed.

Lemma add_minutes_Ok d delta d' :
  add_minutes d delta = Ok d' →
  toordinal d' = toordinal d + (minute_of_day d + delta) / 1440
  ∧ minute_of_day d' = (minute_of_day d + delta) mod 1440.
Proof. unfold add_minutes. case_match; [|done]. by intros [= <-]. Qed.

Lemma add_minutes_fuel d delta : add_minutes d delta ≠ OutOfFuel.
Proof. unfold add_minutes. by case_match. Qed.

Lemma digit_of_bounds c n : digit_of c = Some n → 0 ≤ n ≤ 9.
Proof.
  unfold digit_of. destruct (_ && _) eqn:H; [|done]. intros [= <-].
  apply andb_true_iff in H as [?%Z.leb_le ?%Z.leb_le]. lia.
Qed.

Lemma int_acc_nonneg s acc : 0 ≤ acc → 0 ≤ int_acc acc s.
Proof.
  revert acc. induction s as [|c s IH]; intros acc Hacc; simpl; [done|].
  destruct (digit_of c) as [n|] eqn:Hn; [|by apply IH].
  apply digit_of_bounds in Hn. apply IH. lia.
Qed.

Lemma strptime_HM_nonneg s t : strptime_HM s = Ok t → 0 ≤ t.
Proof.
  unfold strptime_HM. intros H. repeat case_match; simplify_eq.
  match goal with
  | |- 0 ≤ int ?h * 60 + int ?m =>
      pose proof (int_acc_nonneg h 0 ltac:(lia));
      pose proof (int_acc_nonneg m 0 ltac:(lia))
  end.
  unfold int. lia.
Qed.

Lemma strptime_HM_fuel s : strptime_HM s ≠ OutOfFuel.
Proof. unfold strptime_HM. by repeat case_match. Qed.

Lemma strptime_Ymd_midnight s d : strptime_Ymd s = Ok d → minute_of_day d = 0.
Proof. unfold strptime_Ymd. intros H. by repeat case_match; simplify_eq. Qed.

Lemma strptime_Ymd_fuel s : strptime_Ymd s ≠ OutOfFuel.
Proof. unfold strptime_Ymd. by repeat case_match. Qed.

(** [hour_loop] within its budget, started on the day of [day_end] *)
Lemma hour_loop_fuel fuel current_date day_name end_time day_end current_time slots :
  toordinal day_end ≤ toordinal current_time →
  0 ≤ minute_of_day current_time →
  (hour_fuel current_time day_end ≤ fuel)%nat →
  hour_loop fuel current_date day_name end_time day_end current_time slots
  ≠ OutOfFuel.
Proof.
  revert current_time slots.
  induction fuel as [|fuel IH]; intros c slots Hord Hmin Hfuel; simpl;
    destruct (lt c day_end) eqn:Hlt; try done;
    apply lt_spec in Hlt; unfold hour_fuel in Hfuel.
  - lia.
  - unfold add_hours. destruct (add_minutes c (1 * 60)) as [c'| |] eqn:Hadd; simpl;
      [|done|by destruct (add_minutes_fuel _ _ Hadd)].
    apply add_minutes_Ok in Hadd as [Ho Hm].
    pose proof (Z.div_mod (minute_of_day c + 1 * 60) 1440 ltac:(lia)) as Hdm.
    pose proof (Z.mod_pos_bound (minute_of_day c + 1 * 60) 1440 ltac:(lia)).
    pose proof (Z.div_pos (minute_of_day c + 1 * 60) 1440 ltac:(lia) ltac:(lia)).
    apply IH; [lia|lia|]. unfold hour_fuel. lia.
Qed.

Lemma day_slots_fuel request current_date slots :
  day_slots request current_date slots ≠ OutOfFuel.
Proof.
  unfold day_slots. case_bool_decide; [|done].
  destruct (strptime_HM (start_time request)) as [s| |] eqn:Hs; simpl;
    [|done|by destruct (strptime_HM_fuel _ Hs)].
  destruct (strptime_HM (end_time request)) as [e| |] eqn:He; simpl;
    [|done|by destruct (strptime_HM_fuel _ He)].
  apply hour_loop_fuel; simpl; [lia| |lia].
  by eapply strptime_HM_nonneg.
Qed.

Lemma date_loop_fuel fuel request end_date current_date slots :
  0 ≤ minute_of_day current_date →
  (date_fuel current_date end_date ≤ fuel)%nat →
  date_loop fuel request end_date current_date slots ≠ OutOfFuel.
Proof.
  revert current_date slots.
  induction fuel as [|fuel IH]; intros c slots Hmin Hfuel; simpl;
    destruct (le c end_date) eqn:Hle; try done;
    apply le_spec in Hle; unfold date_fuel in Hfuel.
  - lia.
  - pose proof (day_slots_fuel request c slots) as Hday.
    destruct (day_slots request c slots) as [slots'| |]; simpl; [|done|done].
    unfold add_days. destruct (add_minutes c (1 * 1440)) as [c'| |] eqn:Hadd; simpl;
      [|done|by destruct (add_minutes_fuel _ _ Hadd)].
    apply add_minutes_Ok in Hadd as [Ho Hm].
    pose proof (Z.mod_pos_bound (minute_of_day c + 1 * 1440) 1440 ltac:(lia)).
    assert (1 ≤ (minute_of_day c + 1 * 1440) / 1440).
    { apply Z.div_le_lower_bound; lia. }
    apply IH; [lia|]. unfold date_fuel. lia.
Qed.

(** The enumerator always returns (a list of slots, or an exception). *)
Lemma generate_time_slots_fuel request : _generate_time_slots request ≠ OutOfFuel.
Proof.
  unfold _generate_time_slots.
  destruct (strptime_Ymd (start_date request)) as [s| |] eqn:Hs; simpl;
    [|done|by destruct (strptime_Ymd_fuel _ Hs)].
  destruct (strptime_Ymd (end_date request)) as [e| |] eqn:He; simpl;
    [|done|by destruct (strptime_Ymd_fuel _ He)].
  apply date_loop_fuel; [|done].
  by rewrite (strptime_Ymd_midnight _ _ Hs).
Qed.

Lemma hour_loop_dated fuel current_date day_name end_time day_end current_time
    slots slots' :
  Forall dated slots →
  hour_loop fuel current_date day_name end_time day_end current_time slots
  = Ok slots' →
  Forall dated slots'.
Proof.
  revert current_time slots.
  induction fuel as [|fuel IH]; intros c slots Hall; simpl;
    destruct (lt c day_end); try done; try (by intros [= <-]).
  destruct (add_hours c 1) as [c'| |]; simpl; [|done|done].
  apply IH. case_match; [|done].
  apply Forall_app. split; [done|]. apply Forall_singleton. by exists current_date.
Qed.

Lemma date_loop_dated fuel request end_date current_date slots slots' :
  Forall dated slots →
  date_loop fuel request end_date current_date slots = Ok slots' →
  Forall dated slots'.
Proof.
  revert current_date slots.
  induction fuel as [|fuel IH]; intros c slots Hall; simpl;
    destruct (le c end_date); try done; try (by intros [= <-]).
  destruct (day_slots request c slots) as [slots1| |] eqn:Hday; simpl; [|done|done].
  destruct (add_days c 1) as [c'| |]; simpl; [|done|done].
  apply IH. unfold day_slots in Hday. case_bool_decide; [|by simplify_eq].
  destruct (strptime_HM (start_time request)); simpl in Hday; [|done|done].
  destruct (strptime_HM (end_time request)); simpl in Hday; [|done|done].
  by eapply hour_loop_dated.
Qed.

Lemma generate_time_slots_dated request time_slots :
  _generate_time_slots request = Ok time_slots → Forall dated time_slots.
Proof.
  unfold _generate_time_slots.
  destruct (strptime_Ymd (start_date request)); simpl; [|done|done].
  destruct (strptime_Ymd (end_date request)); simpl; [|done|done].
  by apply date_loop_dated.
Qed.

Lemma strftime_Ymd_length d : String.length (strftime_Ymd d) = 10%nat.
Proof. unfold strftime_Ymd. by destruct (_ord2ymd (toordinal d)) as [[y m] dd]. Qed.

End TimeSlotFacts.

(** ** The time slot enumerator on a window that ends by 23:00 *)

Section WindowSlots.
Import Datetime.


Lemma add_days_midnight ordinal :
  0 ≤ ordinal → ordinal < _MAXORDINAL →
  add_days (midnight ordinal) 1 = Ok (midnight (ordinal + 1)).
Proof.
  intros Hlo Hhi. unfold add_days, add_minutes, midnight. simpl.
  change ((0 + 1 * 1440) / 1440) with 1. change ((0 + 1 * 1440) mod 1440) with 0.
  assert ((1 <=? ordinal + 1) = true) as -> by (apply Z.leb_le; lia).
  assert ((ordinal + 1 <=? _MAXORDINAL) = true) as -> by (apply Z.leb_le; lia).
  done.
Qed.




End WindowSlots.

(** A string of the length of [date] that is a prefix of [date ++ rest]
    is [date]: [startswith] on a slot key selects exactly the keys of the
    date. *)
Lemma prefix_same_length (a b rest : string) :
  String.length a = String.length b →
  String.prefix a (b +:+ rest) = true → a = b.
Proof.
  revert b. induction a as [|c a IH]; intros [|c' b]; simpl; try done.
  intros [= Hlen]. destruct (Ascii.ascii_dec c c') as [->|]; [|done].
  intros H. f_equal. by apply IH.
Qed.

(** ** Invariants of the state along a call

    Every change of the state after the matrix is built is made by
    [_try_assign_slot] or is the reset of [batch_slots] at the start of a
    batch.  A property kept by both is
    kept by every loop, whatever the outcome. *)

Section StateInvariant.
Variable teachers : list Teacher.
Variable classrooms : list Classroom.
Variable time_slots : list TimeSlot.
Variable Inv : GenState → Prop.

Hypothesis Inv_step :
  ∀ batch subject available_teachers time_slot σ,
    available_teachers ⊆ teachers →
    time_slot ∈ time_slots →
    Inv σ →
    Inv (_try_assign_slot batch subject available_teachers classrooms time_slot σ).1.

Lemma assign_loop_invariant fuel batch subject available_teachers
    classes_needed classes_assigned slot_index σ :
  available_teachers ⊆ teachers →
  Inv σ →
  Inv (assign_loop fuel batch subject available_teachers classrooms time_slots
         classes_needed classes_assigned slot_index σ).1.
Proof.
  intros Hsub. revert classes_assigned slot_index σ.
  induction fuel as [|fuel IH]; intros a i σ HI; rewrite assign_loop_unfold;
    destruct (_ && _); try done.
  unfold bind, lift.
  destruct (time_slots !! i) as [time_slot|] eqn:Hslot; [|done].
  pose proof (Inv_step batch subject available_teachers time_slot σ Hsub
                (list_elem_of_lookup_2 _ _ _ Hslot) HI) as Hstep.
  destruct (_try_assign_slot _ _ _ _ _ σ) as [σ1 [b|e|]]; simpl in *; [|done|done].
  by apply IH.
Qed.

Lemma subjects_loop_invariant batch requirements subjects slot_index σ :
  Inv σ →
  Inv (subjects_loop batch requirements teachers classrooms time_slots subjects
         slot_index σ).1.
Proof.
  revert slot_index σ. induction subjects as [|subject subjects IH]; intros i σ HI;
    [done|].
  simpl. unfold bind at 1, lift at 1.
  destruct (requirements !! s_id subject) as [needed|]; simpl; [|done].
  unfold bind.
  pose proof (assign_loop_invariant (length time_slots - i) batch subject
                (_find_available_teachers subject teachers) needed 0 i σ
                (find_available_teachers_subseteq _ _) HI) as Hloop.
  destruct (assign_loop _ _ _ _ _ _ _ _ _ σ) as [σ1 [[a i']|e|]]; simpl in *;
    [by apply IH|done|done].
Qed.

Lemma generate_batch_invariant batch subjects σ :
  Inv (with_batch_slots [] σ) →
  Inv (_generate_batch_timetable batch subjects teachers classrooms time_slots σ).1.
Proof.
  intros HI.
  unfold _generate_batch_timetable, bind, set_batch_slots, modify, get, ret; simpl.
  match goal with
  | |- context [subjects_loop ?b ?rq ?t ?c ?ts ?ss ?i ?s] =>
      pose proof (subjects_loop_invariant b rq ss i s HI) as Hloop;
      destruct (subjects_loop b rq t c ts ss i s) as [σ1 [i'|e|]]
  end; simpl in *; done.
Qed.

Hypothesis Inv_rows : ∀ rows σ, Inv σ → Inv (with_batch_slots rows σ).

Lemma batches_loop_invariant subjects batches timetable_slots σ :
  Inv σ →
  Inv (batches_loop subjects teachers classrooms time_slots batches
         timetable_slots σ).1.
Proof.
  revert timetable_slots σ. induction batches as [|batch batches IH];
    intros acc σ HI; [done|].
  simpl. unfold bind at 1, lift at 1.
  destruct (subjects_of_batch batch subjects) as [batch_subjects|e|]; simpl;
    [|done|done].
  unfold bind.
  pose proof (generate_batch_invariant batch batch_subjects σ (Inv_rows [] σ HI))
    as Hbatch.
  destruct (_generate_batch_timetable _ _ _ _ _ σ) as [σ1 [rows|e|]]; simpl in *;
    [by apply IH|done|done].
Qed.

End StateInvariant.

Lemma generate_timetable_body_run request store :
  call_run request store
    (generate_timetable_body request store initial_state).1
    (generate_timetable_body request store initial_state).2.
Proof.
  unfold generate_timetable_body, bind, lift.
  destruct (found_batches store) as [e|batches] eqn:Hb; simpl; [constructor|].
  destruct (found_subjects store) as [e|subjects] eqn:Hs; simpl; [constructor|].
  destruct (all_teachers store) as [e|teachers] eqn:Ht; simpl; [constructor|].
  destruct (all_classrooms store) as [e|classrooms] eqn:Hc; simpl; [constructor|].
  destruct (_generate_time_slots request) as [time_slots|e|] eqn:Hts; simpl;
    [|constructor|by destruct (generate_time_slots_fuel request)].
  by apply run_batches.
Qed.

(** ** What the loops of a batch do to the history *)

Lemma attempt_step_Ok batch subject available_teachers classrooms time_slot σ σ' ok :
  attempt_step batch subject available_teachers classrooms time_slot σ σ' (Ok ok) →
  ∃ att,
    attempts σ' = attempts σ ++ [att]
    ∧ conflicts σ' = conflicts σ ++ omap conflict_of [att]
    ∧ att_time_slot att = time_slot
    ∧ att_subject att = subject
    ∧ att_batch att = batch
    ∧ length (omap reservation_of [att]) = (if ok then 1 else 0)%nat
    ∧ length (omap conflict_of [att]) = (if ok then 0 else 1)%nat.
Proof.
  inversion 1 as [|name Ht Hn|teacher name Ht Hc Hn|teacher classroom tb cb Ht Hc Htb Hcb];
    subst; eexists; simpl.
  - repeat split; try done; unfold conflict_of; simpl; by rewrite Hn.
  - repeat split; try done; unfold conflict_of; simpl; by rewrite Hn.
  - repeat split; try done. by rewrite app_nil_r.
Qed.

Lemma assign_loop_Ok fuel batch subject available_teachers classrooms time_slots
    classes_needed classes_assigned slot_index σ σ' classes_assigned' slot_index' :
  assign_loop fuel batch subject available_teachers classrooms time_slots
    classes_needed classes_assigned slot_index σ
  = (σ', Ok (classes_assigned', slot_index')) →
  ∃ new,
    attempts σ' = attempts σ ++ new
    ∧ conflicts σ' = conflicts σ ++ omap conflict_of new
    ∧ att_time_slot <$> new = take (slot_index' - slot_index) (drop slot_index time_slots)
    ∧ Forall (λ att, att_subject att = subject ∧ att_batch att = batch) new
    ∧ (slot_index ≤ slot_index')%nat
    ∧ length new = (slot_index' - slot_index)%nat
    ∧ classes_assigned' = classes_assigned + Z.of_nat (length (omap reservation_of new))
    ∧ (length (omap conflict_of new) + length (omap reservation_of new) = length new)%nat
    ∧ (classes_assigned' < classes_needed → (length time_slots ≤ slot_index')%nat)
    ∧ (slot_index ≤ length time_slots → slot_index' ≤ length time_slots)%nat.
Proof.
  revert classes_assigned slot_index σ.
  assert (∀ a i σ,
            (a <? classes_needed) && bool_decide (i < length time_slots)%nat = false →
            (σ, Ok (a, i)) = (σ', Ok (classes_assigned', slot_index')) →
            ∃ new,
              attempts σ' = attempts σ ++ new
              ∧ conflicts σ' = conflicts σ ++ omap conflict_of new
              ∧ att_time_slot <$> new = take (slot_index' - i) (drop i time_slots)
              ∧ Forall (λ att, att_subject att = subject ∧ att_batch att = batch) new
              ∧ (i ≤ slot_index')%nat
              ∧ length new = (slot_index' - i)%nat
              ∧ classes_assigned' = a + Z.of_nat (length (omap reservation_of new))
              ∧ (length (omap conflict_of new) + length (omap reservation_of new)
                 = length new)%nat
              ∧ (classes_assigned' < classes_needed → (length time_slots ≤ slot_index')%nat)
              ∧ (i ≤ length time_slots → slot_index' ≤ length time_slots)%nat) as Hstop.
  { intros a i σ Hguard [= <- <- <-]. exists []. rewrite !app_nil_r, Nat.sub_diag.
    repeat split; try done; try lia; [simpl; lia|].
    apply andb_false_iff in Hguard as [Ha%Z.ltb_ge|Hi%bool_decide_eq_false]; lia. }
  induction fuel as [|fuel IH]; intros a i σ; rewrite assign_loop_unfold;
    destruct (_ && _) eqn:Hguard; try done; try (by apply Hstop).
  unfold bind, lift.
  destruct (time_slots !! i) as [time_slot|] eqn:Hslot; [|done].
  pose proof (try_assign_step batch subject available_teachers classrooms time_slot σ)
    as Hstep.
  destruct (_try_assign_slot _ _ _ _ _ σ) as [σ1 [ok|e|]]; simpl in *; [|done|done].
  intros Hrun.
  apply IH in Hrun
    as (new & Hatt & Hconf & Hslots & Hall & Hle & Hlen & Hcount & Hsum & Hshort & Hbound).
  apply attempt_step_Ok in Hstep
    as (att & Hatt1 & Hconf1 & Hs1 & Hsub1 & Hb1 & Hres1 & Hmsg1).
  exists (att :: new).
  assert (slot_index' - i = S (slot_index' - S i))%nat as Hsucc by lia.
  pose proof (lookup_lt_Some _ _ _ Hslot) as Hi.
  repeat split.
  - by rewrite Hatt, Hatt1, <- app_assoc.
  - rewrite Hconf, Hconf1, <- app_assoc. f_equal.
    by rewrite <- omap_app.
  - by rewrite fmap_cons, Hs1, Hslots, Hsucc, (drop_S _ _ _ Hslot).
  - by constructor.
  - lia.
  - simpl. lia.
  - rewrite Hcount. change (att :: new) with ([att] ++ new).
    rewrite omap_app, length_app, Hres1. destruct ok; lia.
  - change (att :: new) with ([att] ++ new).
    rewrite !omap_app, !length_app, Hres1, Hmsg1. simpl. destruct ok; lia.
  - done.
  - lia.
Qed.

Lemma fmap_constant {A B : Type} (f : A → B) (c : B) (l : list A) :
  Forall (λ x, f x = c) l → f <$> l = replicate (length l) c.
Proof. induction 1 as [|x l Hx _ IH]; [done|]. by rewrite fmap_cons, Hx, IH. Qed.

Lemma subjects_loop_Ok batch requirements teachers classrooms time_slots subjects
    slot_index σ σ' slot_index' :
  subjects_loop batch requirements teachers classrooms time_slots subjects
    slot_index σ = (σ', Ok slot_index') →
  ∃ (counts : list nat) (new : list Attempt),
    length counts = length subjects
    ∧ slot_index' = (slot_index + sum_list counts)%nat
    ∧ (slot_index ≤ length time_slots → slot_index' ≤ length time_slots)%nat
    ∧ attempts σ' = attempts σ ++ new
    ∧ att_time_slot <$> new = take (sum_list counts) (drop slot_index time_slots)
    ∧ att_subject <$> new = mjoin (zip_with replicate counts subjects)
    ∧ Forall (λ att, att_batch att = batch) new
    ∧ conflicts σ' = conflicts σ ++ omap conflict_of new.
Proof.
  revert slot_index σ. induction subjects as [|subject subjects IH]; intros i σ.
  - intros [= <- <-]. exists [], []. rewrite !app_nil_r. simpl.
    repeat split; try done; lia.
  - simpl. unfold bind at 1, lift at 1.
    destruct (requirements !! s_id subject) as [needed|]; simpl; [|done].
    unfold bind.
    destruct (assign_loop _ _ _ _ _ _ _ _ _ σ) as [σ1 [[a i1]|e|]] eqn:Hloop;
      simpl; [|done|done].
    intros Hrest.
    apply assign_loop_Ok in Hloop
      as (new1 & Hatt1 & Hconf1 & Hslots1 & Hall1 & Hle1 & Hlen1 & _ & _ & _ & Hbound1).
    apply IH in Hrest
      as (counts & new2 & Hlen & Hidx & Hbound & Hatt & Hslots & Hsubj & Hbatch & Hconf).
    exists ((i1 - i)%nat :: counts), (new1 ++ new2). simpl.
    repeat split.
    + by rewrite Hlen.
    + lia.
    + lia.
    + by rewrite Hatt, Hatt1, <- app_assoc.
    + rewrite fmap_app, Hslots1, Hslots, <- take_take_drop, drop_drop.
      by replace (i + (i1 - i))%nat with i1 by lia.
    + rewrite fmap_app, Hsubj. f_equal. rewrite <- Hlen1.
      apply fmap_constant. eapply Forall_impl; [exact Hall1|]. by intros ? [? _].
    + apply Forall_app. split; [|done].
      eapply Forall_impl; [exact Hall1|]. by intros ? [_ ?].
    + by rewrite Hconf, Hconf1, omap_app, <- app_assoc.
Qed.

(** ** Invariant: the conflict log is the list of the failed attempts'
    messages *)

Lemma conflicts_logged_step batch subject available_teachers classrooms time_slot
    σ σ' r :
  conflicts_logged σ →
  attempt_step batch subject available_teachers classrooms time_slot σ σ' r →
  conflicts_logged σ'.
Proof.
  unfold conflicts_logged. intros Hlog Hstep. destruct r as [ok|e|].
  - apply attempt_step_Ok in Hstep as (att & -> & -> & _). by rewrite Hlog, omap_app.
  - by inversion Hstep; subst.
  - inversion Hstep.
Qed.

(** ** Invariant: bookings are unique and recorded in the matrix *)

Lemma marked_insert schedule resource_id busy slot_key resource_id' slot_key' :
  schedule !! resource_id = Some busy →
  marked schedule resource_id' slot_key' →
  marked (<[resource_id := busy ∪ {[slot_key]}]> schedule) resource_id' slot_key'.
Proof.
  intros Hbusy (busy' & Hlookup & Hin). unfold marked.
  destruct (decide (resource_id = resource_id')) as [<-|Hne].
  - rewrite lookup_insert_eq. eexists; split; [done|]. set_solver.
  - rewrite lookup_insert_ne by done. eauto.
Qed.

Lemma marked_insert_eq (schedule : gmap string (gset string)) resource_id busy slot_key :
  marked (<[resource_id := busy ∪ {[slot_key]}]> schedule) resource_id slot_key.
Proof. unfold marked. rewrite lookup_insert_eq. eexists; split; [done|]. set_solver. Qed.

Lemma bookings_unique_step batch subject available_teachers classrooms time_slot
    σ σ' r :
  bookings_unique σ →
  attempt_step batch subject available_teachers classrooms time_slot σ σ' r →
  bookings_unique σ'.
Proof.
  intros (Hteachers & Hclassrooms & Hmarked).
  inversion 1 as [|name Ht Hn|teacher name Ht Hc Hn|teacher classroom tb cb Ht Hc Htb Hcb];
    subst; unfold bookings_unique, reservations in *; simpl; try done;
    rewrite omap_app; simpl; rewrite ?app_nil_r; try done.
  apply find_teacher_Some in Ht as (_ & tb' & Htb' & Htfree & _).
  apply find_classroom_Some in Hc as (_ & cb' & Hcb' & Hcfree).
  rewrite Htb in Htb'. injection Htb' as <-.
  rewrite Hcb in Hcb'. injection Hcb' as <-.
  rewrite !fmap_app. simpl. split_and!.
  - apply NoDup_app. split_and!; [done| |apply NoDup_singleton].
    intros booking Hold ->%list_elem_of_singleton.
    apply list_elem_of_fmap in Hold as (r & Heq & Hr).
    destruct (Hmarked r Hr) as [(busy & Hbusy & Hin) _].
    unfold teacher_booking in Heq. simpl in Heq. injection Heq as Hid Hdate Hstart.
    unfold slot_key_of in *. rewrite <- Hid, Htb in Hbusy. injection Hbusy as <-.
    by rewrite <- Hdate, <- Hstart in Hin.
  - apply NoDup_app. split_and!; [done| |apply NoDup_singleton].
    intros booking Hold ->%list_elem_of_singleton.
    apply list_elem_of_fmap in Hold as (r & Heq & Hr).
    destruct (Hmarked r Hr) as [_ (busy & Hbusy & Hin)].
    unfold classroom_booking in Heq. simpl in Heq. injection Heq as Hid Hdate Hstart.
    unfold slot_key_of in *. rewrite <- Hid, Hcb in Hbusy. injection Hbusy as <-.
    by rewrite <- Hdate, <- Hstart in Hin.
  - intros r [Hr| ->%list_elem_of_singleton]%elem_of_app.
    + destruct (Hmarked r Hr). split; by apply marked_insert.
    + simpl. split; apply marked_insert_eq.
Qed.

Lemma bookings_unique_rows rows σ :
  bookings_unique σ → bookings_unique (with_batch_slots rows σ).
Proof. done. Qed.

Lemma bookings_unique_started time_slots teachers classrooms :
  bookings_unique (started_state time_slots teachers classrooms).
Proof.
  unfold bookings_unique, reservations; simpl. split_and!; [constructor..|].
  by intros r ?%elem_of_nil.
Qed.

(** ** Invariant: the rows are the fan-out of the reservations *)

Lemma rows_accounted_step timetable_slots batch subject available_teachers classrooms
    time_slot σ σ' r :
  rows_accounted timetable_slots σ →
  attempt_step batch subject available_teachers classrooms time_slot σ σ' r →
  rows_accounted timetable_slots σ'.
Proof.
  unfold rows_accounted, reservations. intros Hrows.
  inversion 1; subst; simpl; try done; rewrite omap_app; simpl.
  - by rewrite app_nil_r.
  - by rewrite app_nil_r.
  - rewrite flat_map_app, <- Hrows, <- app_assoc. simpl. by rewrite app_nil_r.
Qed.

Lemma generate_batch_rows batch subjects teachers classrooms time_slots σ σ' rows :
  _generate_batch_timetable batch subjects teachers classrooms time_slots σ
  = (σ', Ok rows) →
  rows = batch_slots σ'.
Proof.
  unfold _generate_batch_timetable, bind, set_batch_slots, modify, get, ret; simpl.
  destruct (subjects_loop _ _ _ _ _ _ _ _) as [σ1 [i|e|]]; simpl; [|done|done].
  by intros [= <- <-].
Qed.

Lemma batches_loop_rows subjects teachers classrooms time_slots batches
    timetable_slots σ σ' rows :
  timetable_slots = flat_map fan_out (reservations σ) →
  batches_loop subjects teachers classrooms time_slots batches timetable_slots σ
  = (σ', Ok rows) →
  rows = flat_map fan_out (reservations σ').
Proof.
  revert timetable_slots σ. induction batches as [|batch batches IH];
    intros acc σ Hacc; simpl.
  - by intros [= <- <-].
  - unfold bind at 1, lift at 1.
    destruct (subjects_of_batch batch subjects) as [batch_subjects|e|]; simpl;
      [|done|done].
    unfold bind.
    pose proof (generate_batch_invariant teachers classrooms time_slots
                  (rows_accounted acc)) as Hinv.
    specialize (Hinv (λ b s a ts σ0 _ _ H0,
                        rows_accounted_step acc b s a classrooms ts σ0 _ _ H0
                          (try_assign_step b s a classrooms ts σ0))
                  batch batch_subjects σ).
    destruct (_generate_batch_timetable _ _ _ _ _ σ) as [σ1 [rows1|e|]] eqn:Hbatch;
      simpl in *; [|done|done].
    apply generate_batch_rows in Hbatch as ->.
    apply IH. apply Hinv. unfold rows_accounted; simpl. by rewrite app_nil_r.
Qed.

(** ** Invariant: the daily load of every teacher is within the cap *)

Lemma same_id_same_teacher (teachers : list Teacher) (t1 t2 : Teacher) :
  NoDup (t_id <$> teachers) → t1 ∈ teachers → t2 ∈ teachers → t_id t1 = t_id t2 →
  t1 = t2.
Proof.
  induction teachers as [|t ts IH]; [by intros _ ?%elem_of_nil|].
  rewrite fmap_cons. intros [Hnotin Hnodup]%NoDup_cons.
  intros [->|H1]%elem_of_cons [->|H2]%elem_of_cons Hid; [done| | |by apply IH].
  - destruct Hnotin. rewrite Hid. by apply list_elem_of_fmap_2.
  - destruct Hnotin. rewrite <- Hid. by apply list_elem_of_fmap_2.
Qed.

Lemma day_load_add date busy slot_key :
  slot_key ∉ busy →
  day_load date (busy ∪ {[slot_key]}) =
    if String.prefix date slot_key then S (day_load date busy) else day_load date busy.
Proof.
  intros Hfresh. unfold day_load, day_slots_of.
  rewrite (comm_L (∪) busy), (elements_union_singleton _ _ Hfresh), filter_cons.
  destruct (String.prefix date slot_key); by case_decide.
Qed.

Lemma within_caps_step teachers batch subject available_teachers classrooms time_slot
    σ σ' r :
  NoDup (t_id <$> teachers) →
  available_teachers ⊆ teachers →
  dated time_slot →
  within_caps teachers (teacher_schedule σ) →
  attempt_step batch subject available_teachers classrooms time_slot σ σ' r →
  within_caps teachers (teacher_schedule σ').
Proof.
  intros Hnodup Hsub [d0 Hdate] Hcaps.
  inversion 1 as [|name Ht Hn|teacher name Ht Hc Hn|teacher0 classroom tb cb Ht Hc Htb Hcb];
    subst; simpl; try done.
  apply find_teacher_Some in Ht as (Hin & tb' & Htb' & Hfree & Hroom).
  rewrite Htb in Htb'. injection Htb' as <-.
  intros teacher busy d Hteacher Hbusy.
  destruct (decide (t_id teacher0 = t_id teacher)) as [Hid|Hne].
  - assert (teacher0 = teacher) as <- by (eapply same_id_same_teacher; eauto).
    rewrite lookup_insert_eq in Hbusy. injection Hbusy as <-.
    rewrite day_load_add by done.
    destruct (String.prefix _ _) eqn:Hprefix; [|by eapply Hcaps].
    unfold slot_key_of in Hprefix. rewrite Hdate in Hprefix.
    apply prefix_same_length in Hprefix; [|by rewrite !strftime_Ymd_length].
    rewrite Hprefix, <- Hdate. unfold day_load. lia.
  - rewrite lookup_insert_ne in Hbusy by done. by eapply Hcaps.
Qed.

Lemma initial_schedule_lookup {A : Type} (key_of : A → string) (docs : list A)
    (schedule : gmap string (gset string)) resource_id busy :
  foldl (λ sched doc, <[key_of doc := ∅]> sched) schedule docs !! resource_id
  = Some busy →
  busy = ∅ ∨ schedule !! resource_id = Some busy.
Proof.
  revert schedule. induction docs as [|doc docs IH]; intros schedule; simpl; [by right|].
  intros [->|H]%IH; [by left|].
  destruct (decide (key_of doc = resource_id)) as [<-|Hne].
  - rewrite lookup_insert_eq in H. injection H as <-. by left.
  - rewrite lookup_insert_ne in H by done. by right.
Qed.

Lemma within_caps_started teachers classrooms time_slots :
  (∀ teacher, teacher ∈ teachers → 0 ≤ default 6 (t_max_classes_per_day teacher)) →
  within_caps teachers (teacher_schedule (started_state time_slots teachers classrooms)).
Proof.
  intros Hpos teacher busy d Hin Hbusy. simpl in Hbusy.
  apply initial_schedule_lookup in Hbusy as [->|Hbusy]; [|done].
  unfold day_load, day_slots_of. rewrite elements_empty. simpl. by apply Hpos.
Qed.

(** ** The claims *)

(** C9. For a non-empty roster, [_find_available_teachers] (the
    candidateTeachers of the specification) returns, in roster order, the
    teachers whose subject list contains the subject's id or is empty or
    missing; when no teacher of the roster qualifies it returns the list
    holding exactly the first teacher of the roster.  It never returns the
    empty list. *)
Theorem candidate_teachers_fallback (subject : Subject) (teachers : list Teacher) :
  teachers ≠ [] →
  _find_available_teachers subject teachers ≠ []
  ∧ (filter (qualifies subject) teachers ≠ [] →
     _find_available_teachers subject teachers = filter (qualifies subject) teachers)
  ∧ (filter (qualifies subject) teachers = [] →
     ∃ first, head teachers = Some first
              ∧ _find_available_teachers subject teachers = [first]).
Proof.
  intros Hroster. rewrite find_available_teachers_eq.
  destruct (filter (qualifies subject) teachers) as [|q qs] eqn:Hq.
  - destruct teachers as [|first rest]; [done|]. simpl.
    split_and!; [done|done|]. intros _. by exists first.
  - split_and!; done.
Qed.

Lemma candidate_teachers_fallback_witness :
  _find_available_teachers physics [teacher_t1; teacher_t2] = [teacher_t2]
  ∧ _find_available_teachers physics [teacher_t1] = [teacher_t1].
Proof.
  split.
  - apply (candidate_teachers_fallback physics [teacher_t1; teacher_t2]); done.
  - destruct (candidate_teachers_fallback physics [teacher_t1]) as (_ & _ & Hfallback);
      [done|].
    destruct Hfallback as (first & Hfirst & ->); [done|].
    by injection Hfirst as <-.
Defined.

(** C7. An attempt for a subject called [name]: when no candidate teacher
    is free, the attempt appends ["No available teacher for <name> at
    <start_time> on <day>"] to the conflict log and leaves the occupancy
    matrix and the rows as they were; when a teacher is free but no
    classroom is, it appends ["No available classroom for <name> at
    <start_time> on <day>"], emits no row, and reserves neither the teacher
    found nor any classroom.  Both attempts return [False]. *)
Theorem unavailable_resource_conflict (batch : Batch) (subject : Subject)
    (available_teachers : list Teacher) (classrooms : list Classroom)
    (time_slot : TimeSlot) (σ : GenState) (name : string) :
  s_name subject = Some name →
  let run := _try_assign_slot batch subject available_teachers classrooms time_slot σ in
  (_find_available_teacher_for_slot available_teachers time_slot (teacher_schedule σ)
   = Ok None →
   run.2 = Ok false
   ∧ conflicts run.1 =
       conflicts σ ++ ["No available teacher for " +:+ name +:+ " at "
                       +:+ slot_start_time time_slot +:+ " on " +:+ slot_day time_slot]
   ∧ teacher_schedule run.1 = teacher_schedule σ
   ∧ classroom_schedule run.1 = classroom_schedule σ
   ∧ batch_slots run.1 = batch_slots σ)
  ∧ (∀ teacher,
       _find_available_teacher_for_slot available_teachers time_slot (teacher_schedule σ)
       = Ok (Some teacher) →
       _find_available_classroom_for_slot classrooms time_slot (classroom_schedule σ)
       = Ok None →
       run.2 = Ok false
       ∧ conflicts run.1 =
           conflicts σ ++ ["No available classroom for " +:+ name +:+ " at "
                           +:+ slot_start_time time_slot +:+ " on " +:+ slot_day time_slot]
       ∧ teacher_schedule run.1 = teacher_schedule σ
       ∧ classroom_schedule run.1 = classroom_schedule σ
       ∧ batch_slots run.1 = batch_slots σ).
Proof.
  intros Hname run.
  pose proof (try_assign_step batch subject available_teachers classrooms time_slot σ)
    as Hstep. fold run in Hstep.
  split.
  - intros Hnone.
    inversion Hstep as [e Hσ Hr|name' Ht Hn Hσ Hr|teacher name' Ht Hc Hn Hσ Hr
                       |teacher classroom tb cb Ht Hc Htb Hcb Hσ Hr];
      try (rewrite Hnone in Ht; discriminate).
    + exfalso. subst run. revert Hr. unfold _try_assign_slot, bind, get, lift; simpl.
      rewrite Hnone; simpl. by rewrite Hname.
    + rewrite Hname in Hn. by injection Hn as <-.
  - intros teacher Hsome Hnone.
    inversion Hstep as [e Hσ Hr|name' Ht Hn Hσ Hr|teacher' name' Ht Hc Hn Hσ Hr
                       |teacher' classroom tb cb Ht Hc Htb Hcb Hσ Hr];
      try (rewrite Hsome in Ht; discriminate);
      try (rewrite Hnone in Hc; discriminate).
    + exfalso. subst run. revert Hr. unfold _try_assign_slot, bind, get, lift; simpl.
      rewrite Hsome; simpl. rewrite Hnone; simpl. by rewrite Hname.
    + rewrite Hname in Hn. by injection Hn as <-.
Qed.

Lemma unavailable_resource_conflict_witness :
  let run := _try_assign_slot batch_b1 physics [teacher_t1] [room_c1] monday_10 busy_state in
  run.2 = Ok false
  ∧ conflicts run.1 = ["No available teacher for Physics at 10:00 on Monday"]
  ∧ teacher_schedule run.1 = teacher_schedule busy_state
  ∧ classroom_schedule run.1 = classroom_schedule busy_state
  ∧ batch_slots run.1 = batch_slots busy_state.
Proof.
  apply (unavailable_resource_conflict batch_b1 physics [teacher_t1] [room_c1]
           monday_10 busy_state "Physics"); reflexivity.
Defined.

(** C8. A successful assignment for a batch whose section list is
    [sections] appends exactly one row per section, in the order of the
    list, and the rows differ in the section only: they share the subject
    id, the teacher id, the classroom id, the day, the start time and the
    end time.  All of them come from one reservation: the history gains
    one reservation, of that teacher and classroom at that slot. *)
Theorem one_row_per_section (batch : Batch) (subject : Subject)
    (available_teachers : list Teacher) (classrooms : list Classroom)
    (time_slot : TimeSlot) (σ σ' : GenState) (sections : list string) :
  b_sections batch = Some sections →
  _try_assign_slot batch subject available_teachers classrooms time_slot σ
  = (σ', Ok true) →
  ∃ teacher_id classroom_id,
    batch_slots σ' =
      batch_slots σ
      ++ map (λ section,
                {| entry_day := slot_day time_slot;
                   entry_start_time := slot_start_time time_slot;
                   entry_end_time := slot_end_time time_slot;
                   entry_subject_id := s_id subject;
                   entry_teacher_id := teacher_id;
                   entry_classroom_id := classroom_id;
                   entry_batch_id := b_id batch;
                   entry_section := section |})
             sections
    ∧ length (batch_slots σ') = (length (batch_slots σ) + length sections)%nat
    ∧ reservations σ' =
        reservations σ
        ++ [ {| res_batch := batch; res_subject := subject;
                res_time_slot := time_slot;
                res_teacher_id := teacher_id; res_classroom_id := classroom_id |} ].
Proof.
  intros Hsections Hrun. apply try_assign_inv in Hrun.
  inversion Hrun as [| | |teacher classroom tb cb Ht Hc Htb Hcb]; subst.
  exists (t_id teacher), (c_id classroom). simpl. rewrite Hsections. simpl.
  split_and!; [done| |].
  - by rewrite length_app, length_map.
  - unfold reservations; simpl. by rewrite omap_app.
Qed.

Lemma one_row_per_section_witness :
  ∃ teacher_id classroom_id,
    batch_slots busy_state =
      map (λ section,
             {| entry_day := "Monday"; entry_start_time := "09:00";
                entry_end_time := "10:00"; entry_subject_id := "s1";
                entry_teacher_id := teacher_id; entry_classroom_id := classroom_id;
                entry_batch_id := "b1"; entry_section := section |})
          ["A"; "B"]
    ∧ length (batch_slots busy_state) = 2%nat
    ∧ reservations busy_state =
        [ {| res_batch := batch_b1; res_subject := math; res_time_slot := monday_09;
             res_teacher_id := teacher_id; res_classroom_id := classroom_id |} ].
Proof.
  apply (one_row_per_section batch_b1 math [teacher_t1] [room_c1] monday_09
           sample_state busy_state ["A"; "B"]); [reflexivity|].
  vm_compute; reflexivity.
Defined.

(** C10. A successful assignment for a batch whose section list is empty
    still marks the slot for the teacher and the classroom it picked and
    still counts as one class of the subject (the loop goes on with
    [classes_assigned + 1]), but appends no row; for a batch document
    without the ["sections"] key it appends exactly one row, of section
    ["A"]. *)
Theorem assignment_without_sections (batch : Batch) (subject : Subject)
    (available_teachers : list Teacher) (classrooms : list Classroom)
    (time_slot : TimeSlot) (σ σ' : GenState) :
  _try_assign_slot batch subject available_teachers classrooms time_slot σ
  = (σ', Ok true) →
  ∃ teacher_id classroom_id,
    marked (teacher_schedule σ') teacher_id (slot_key_of time_slot)
    ∧ marked (classroom_schedule σ') classroom_id (slot_key_of time_slot)
    ∧ (∀ fuel time_slots classes_needed classes_assigned slot_index,
         classes_assigned < classes_needed →
         time_slots !! slot_index = Some time_slot →
         assign_loop (S fuel) batch subject available_teachers classrooms time_slots
           classes_needed classes_assigned slot_index σ
         = assign_loop fuel batch subject available_teachers classrooms time_slots
             classes_needed (classes_assigned + 1) (S slot_index) σ')
    ∧ (b_sections batch = Some [] → batch_slots σ' = batch_slots σ)
    ∧ (b_sections batch = None →
       batch_slots σ' =
         batch_slots σ
         ++ [ {| entry_day := slot_day time_slot;
                 entry_start_time := slot_start_time time_slot;
                 entry_end_time := slot_end_time time_slot;
                 entry_subject_id := s_id subject;
                 entry_teacher_id := teacher_id;
                 entry_classroom_id := classroom_id;
                 entry_batch_id := b_id batch;
                 entry_section := "A" |} ]).
Proof.
  intros Hrun. pose proof Hrun as Hstep. apply try_assign_inv in Hstep.
  inversion Hstep as [| | |teacher classroom tb cb Ht Hc Htb Hcb]; subst.
  exists (t_id teacher), (c_id classroom). split_and!.
  - apply marked_insert_eq.
  - apply marked_insert_eq.
  - intros fuel time_slots needed a i Ha Hslot.
    rewrite (assign_loop_unfold (S fuel)).
    apply Z.ltb_lt in Ha. rewrite Ha. simpl.
    rewrite bool_decide_eq_true_2 by (by eapply lookup_lt_Some).
    unfold bind at 1, lift at 1. rewrite Hslot. unfold bind. by rewrite Hrun.
  - intros Hsections. simpl. rewrite Hsections. simpl. by rewrite app_nil_r.
  - intros Hsections. simpl. by rewrite Hsections.
Qed.

Lemma assignment_without_sections_witness :
  ∃ teacher_id classroom_id,
    let σ' := (_try_assign_slot batch_no_sections math [teacher_t1] [room_c1]
                 monday_09 sample_state).1 in
    marked (teacher_schedule σ') teacher_id "2024-01-15_09:00"
    ∧ marked (classroom_schedule σ') classroom_id "2024-01-15_09:00"
    ∧ batch_slots σ' = [].
Proof.
  destruct (assignment_without_sections batch_no_sections math [teacher_t1] [room_c1]
              monday_09 sample_state
              (_try_assign_slot batch_no_sections math [teacher_t1] [room_c1]
                 monday_09 sample_state).1)
    as (teacher_id & classroom_id & Hteacher & Hclassroom & _ & Hnone & _).
  { vm_compute; reflexivity. }
  exists teacher_id, classroom_id. split_and!; [done|done|]. by apply Hnone.
Defined.

(** C5. Within one batch the cursor into the slot sequence is shared by
    the subjects and never reset.  Let [new] be the attempts made for the
    batch, in order, whatever their outcome.  They are grouped by subject,
    in the order of the subjects ([counts] gives how many each subject
    made), and the n-th of them, counted from 0 across all subjects, was
    made at [time_slots[n]]: each attempt moves the cursor by exactly one,
    and the first attempt of a subject is at the slot after the last
    attempt of the subject before it. *)
Theorem cursor_shared_across_subjects (batch : Batch) (subjects : list Subject)
    (teachers : list Teacher) (classrooms : list Classroom)
    (time_slots : list TimeSlot) (σ σ' : GenState) (rows : list TimetableSlot) :
  _generate_batch_timetable batch subjects teachers classrooms time_slots σ
  = (σ', Ok rows) →
  ∃ (counts : list nat) (new : list Attempt),
    attempts σ' = attempts σ ++ new
    ∧ length counts = length subjects
    ∧ att_subject <$> new = mjoin (zip_with replicate counts subjects)
    ∧ att_time_slot <$> new = take (length new) time_slots
    ∧ (length new ≤ length time_slots)%nat
    ∧ (∀ n att, new !! n = Some att → time_slots !! n = Some (att_time_slot att)).
Proof.
  unfold _generate_batch_timetable, bind, set_batch_slots, modify, get, ret; simpl.
  destruct (subjects_loop _ _ _ _ _ _ _ _) as [σ1 [i|e|]] eqn:Hloop; simpl;
    [|done|done].
  intros [= <- <-].
  apply subjects_loop_Ok in Hloop
    as (counts & new & Hlen & Hidx & Hbound & Hatt & Hslots & Hsubj & _ & _).
  simpl in *. rewrite drop_0 in Hslots.
  assert (length new = sum_list counts) as Hnew.
  { rewrite <- (length_fmap att_time_slot), Hslots, length_take. lia. }
  exists counts, new. rewrite Hnew. split_and!; try done; [lia|].
  intros n att Hn.
  assert ((att_time_slot <$> new) !! n = Some (att_time_slot att)) as Hslot.
  { by rewrite list_lookup_fmap, Hn. }
  rewrite Hslots in Hslot. by apply lookup_take_Some in Hslot as [? _].
Qed.

Lemma cursor_shared_across_subjects_witness :
  ∃ (counts : list nat) (new : list Attempt),
    attempts (_generate_batch_timetable batch_b1 [math; physics] [teacher_t1] [room_c1]
                [monday_09; monday_10] sample_state).1
    = attempts sample_state ++ new
    ∧ length counts = 2%nat
    ∧ att_subject <$> new = mjoin (zip_with replicate counts [math; physics])
    ∧ att_time_slot <$> new = take (length new) [monday_09; monday_10]
    ∧ (length new ≤ 2)%nat
    ∧ (∀ n att, new !! n = Some att →
         [monday_09; monday_10] !! n = Some (att_time_slot att)).
Proof.
  eapply (cursor_shared_across_subjects batch_b1 [math; physics] [teacher_t1] [room_c1]
            [monday_09; monday_10] sample_state).
  vm_compute; reflexivity.
Defined.



(** ** Whole calls *)

(** The budgets suffice: [generate_timetable] always returns. *)
Lemma generate_timetable_body_fuel request store :
  (generate_timetable_body request store initial_state).2 ≠ OutOfFuel.
Proof.
  destruct (generate_timetable_body_run request store); [done|].
  apply batches_loop_fuel.
Qed.

Lemma generate_timetable_returns request store :
  is_Some (generate_timetable request store).
Proof.
  unfold generate_timetable.
  pose proof (generate_timetable_body_fuel request store) as Hfuel.
  by destruct (generate_timetable_body request store initial_state) as [σ [rows|e|]].
Qed.

(** C1. In every call that returns rows, the rows are the fan-outs, in
    order, of the reservations made during the call, and no two distinct
    reservations have the same teacher id, date and start time, nor the
    same classroom id, date and start time.  So two rows that share a
    teacher (or a classroom), a date and a start time come from one
    reservation. *)
Theorem one_reservation_per_slot_key (request : TimetableRequest) (store : Store)
    (σ : GenState) (timetable_slots : list TimetableSlot) :
  generate_timetable_body request store initial_state = (σ, Ok timetable_slots) →
  generate_timetable request store = Some (timetable_slots, conflicts σ)
  ∧ timetable_slots = flat_map fan_out (reservations σ)
  ∧ NoDup (teacher_booking <$> reservations σ)
  ∧ NoDup (classroom_booking <$> reservations σ).
Proof.
  intros Hbody. split; [unfold generate_timetable; by rewrite Hbody|].
  pose proof (generate_timetable_body_run request store) as Hrun.
  rewrite Hbody in Hrun. simpl in Hrun.
  inversion Hrun as [|batches subjects teachers classrooms time_slots
                      Hb Hs Ht Hc Hts Hσ Hr].
  pose proof (batches_loop_invariant teachers classrooms time_slots bookings_unique
                (λ b s a ts σ0 _ _ H0,
                   bookings_unique_step b s a classrooms ts σ0 _ _ H0
                     (try_assign_step b s a classrooms ts σ0))
                bookings_unique_rows subjects batches []
                (started_state time_slots teachers classrooms)
                (bookings_unique_started _ _ _)) as (Hteachers & Hclassrooms & _).
  destruct (batches_loop _ _ _ _ _ _ _) as [σ1 r1] eqn:Hloop. simpl in *. subst.
  split_and!; [|done|done].
  eapply batches_loop_rows; [|exact Hloop]. reflexivity.
Qed.

Lemma one_reservation_per_slot_key_witness :
  let σ := (generate_timetable_body sample_request sample_store initial_state).1 in
  generate_timetable sample_request sample_store
  = Some (flat_map fan_out (reservations σ),
          ["No available teacher for Physics at 10:00 on Monday"])
  ∧ NoDup (teacher_booking <$> reservations σ)
  ∧ NoDup (classroom_booking <$> reservations σ).
Proof.
  intros σ.
  destruct (one_reservation_per_slot_key sample_request sample_store σ
              (flat_map fan_out (reservations σ)))
    as (Hcall & _ & Hteachers & Hclassrooms); [vm_compute; reflexivity|].
  split_and!; [|done|done].
  rewrite Hcall. vm_compute; reflexivity.
Defined.

(** C2. In a call on a roster whose teachers have distinct ids and caps
    that are not negative, every state that the call goes through, the
    last one included, keeps every teacher within the cap on every date:
    for a teacher whose record carries [max_classes_per_day], the number
    of slot keys that the matrix holds for the teacher on a calendar date
    does not exceed it. *)
Theorem daily_cap_never_exceeded (request : TimetableRequest) (store : Store)
    (batches : list Batch) (subjects : list Subject) (teachers : list Teacher)
    (classrooms : list Classroom) (time_slots : list TimeSlot) :
  found_batches store = inr batches →
  found_subjects store = inr subjects →
  all_teachers store = inr teachers →
  all_classrooms store = inr classrooms →
  _generate_time_slots request = Ok time_slots →
  NoDup (t_id <$> teachers) →
  (∀ teacher max_classes,
     teacher ∈ teachers → t_max_classes_per_day teacher = Some max_classes →
     0 ≤ max_classes) →
  reachable teachers classrooms time_slots
    (generate_timetable_body request store initial_state).1
  ∧ ∀ σ teacher max_classes busy d,
      reachable teachers classrooms time_slots σ →
      teacher ∈ teachers →
      t_max_classes_per_day teacher = Some max_classes →
      teacher_schedule σ !! t_id teacher = Some busy →
      Z.of_nat (day_load (Datetime.strftime_Ymd d) busy) ≤ max_classes.
Proof.
  intros Hb Hs Ht Hc Hts Hnodup Hcaps. split.
  - unfold generate_timetable_body, bind, lift.
    rewrite Hb, Hs, Ht, Hc; simpl. rewrite Hts; simpl.
    apply (batches_loop_invariant teachers classrooms time_slots
             (reachable teachers classrooms time_slots)).
    + intros. by apply reachable_attempt.
    + intros. by apply reachable_reset.
    + apply reachable_start.
  - assert (∀ σ, reachable teachers classrooms time_slots σ →
                 within_caps teachers (teacher_schedule σ)) as Hinv.
    { induction 1 as [|batch subject available_teachers time_slot σ Hsub Hin _ IH
                      |rows σ _ IH].
      - apply within_caps_started. intros teacher Hteacher.
        destruct (t_max_classes_per_day teacher) as [m|] eqn:Hm; simpl; [|lia].
        by eapply Hcaps.
      - eapply within_caps_step; [done|exact Hsub| |exact IH|apply try_assign_step].
        apply generate_time_slots_dated in Hts.
        by eapply Forall_forall in Hts.
      - done. }
    intros σ teacher max_classes busy d Hσ Hteacher Hmax Hbusy.
    specialize (Hinv σ Hσ teacher busy d Hteacher Hbusy).
    by rewrite Hmax in Hinv.
Qed.

Lemma daily_cap_never_exceeded_witness :
  teacher_schedule (generate_timetable_body sample_request sample_store
                      initial_state).1 !! "t1"
  = Some {["2024-01-15_09:00"]}
  ∧ Z.of_nat (day_load "2024-01-15" {["2024-01-15_09:00"]}) ≤ 1.
Proof.
  assert (teacher_schedule (generate_timetable_body sample_request sample_store
                              initial_state).1 !! "t1"
          = Some {["2024-01-15_09:00"]}) as Hbusy by (vm_compute; reflexivity).
  split; [exact Hbusy|].
  destruct (daily_cap_never_exceeded sample_request sample_store
              [batch_b1] [math; physics] [teacher_t1] [room_c1] [monday_09; monday_10])
    as [Hfinal Hcaps];
    [reflexivity|reflexivity|reflexivity|reflexivity|vm_compute; reflexivity| | |].
  - apply NoDup_singleton.
  - intros teacher max_classes ->%list_elem_of_singleton [= <-]. lia.
  - change "2024-01-15"
      with (Datetime.strftime_Ymd
              {| Datetime.toordinal := 738900; Datetime.minute_of_day := 0 |}).
    eapply (Hcaps _ teacher_t1 1 _ _ Hfinal); [by left|reflexivity|exact Hbusy].
Defined.

(** C4, as the code has it.  When the body of a call raises, the call
    returns no row, and its conflict list is the messages of the attempts
    that failed before the exception, in order, followed by one message
    for the exception.  The list has a single message only when no attempt
    had failed before. *)
Theorem failure_keeps_earlier_conflicts (request : TimetableRequest) (store : Store)
    (σ : GenState) (e : exn) :
  generate_timetable_body request store initial_state = (σ, Raise e) →
  conflicts σ = omap conflict_of (attempts σ)
  ∧ generate_timetable request store
    = Some ([], omap conflict_of (attempts σ)
                ++ ["Failed to generate timetable: " +:+ str_exn e]).
Proof.
  intros Hbody.
  assert (conflicts_logged σ) as Hlog.
  { pose proof (generate_timetable_body_run request store) as Hrun.
    rewrite Hbody in Hrun. simpl in Hrun.
    inversion Hrun as [e' Hσ He|batches subjects teachers classrooms time_slots
                                  Hb Hs Ht Hc Hts Hσ Hr]; [done|].
    apply (batches_loop_invariant teachers classrooms time_slots conflicts_logged);
      [|done|done].
    intros b s a ts σ0 _ _ H0.
    eapply conflicts_logged_step; [exact H0|apply try_assign_step]. }
  split; [done|].
  unfold generate_timetable. rewrite Hbody. unfold failure_message.
  by rewrite Hlog.
Qed.

Lemma failure_keeps_earlier_conflicts_witness :
  generate_timetable sample_request malformed_store
  = Some ([], ["No available teacher for Physics at 10:00 on Monday";
               "Failed to generate timetable: 'subjects'"]).
Proof.
  destruct (failure_keeps_earlier_conflicts sample_request malformed_store
              (generate_timetable_body sample_request malformed_store initial_state).1
              (KeyError "subjects")) as [_ Hcall]; [vm_compute; reflexivity|].
  rewrite Hcall. vm_compute; reflexivity.
Defined.

(** C4, as the specification has it, fails: a call whose second batch
    lacks the ["subjects"] key raises after an attempt of the first batch
    has failed, and returns two conflict messages, not one. *)
Lemma single_failure_message_counterexample :
  (generate_timetable_body sample_request malformed_store initial_state).2
  = Raise (KeyError "subjects")
  ∧ generate_timetable sample_request malformed_store
    = Some ([], ["No available teacher for Physics at 10:00 on Monday";
                 "Failed to generate timetable: 'subjects'"])
  ∧ ¬ ∃ msg, generate_timetable sample_request malformed_store = Some ([], [msg]).
Proof.
  split_and!; [vm_compute; reflexivity|vm_compute; reflexivity|].
  intros [msg Hmsg]. vm_compute in Hmsg. discriminate.
Qed.


(** X18. An inverted date range yields no slot and no error: when
    [end_date] is before [start_date] the enumerator returns the empty
    list, without looking at the working days or the window times. *)
Lemma inverted_range_empty (request : TimetableRequest)
    (first last : Datetime.datetime) :
  Datetime.strptime_Ymd (start_date request) = Ok first →
  Datetime.strptime_Ymd (end_date request) = Ok last →
  Datetime.toordinal last < Datetime.toordinal first →
  _generate_time_slots request = Ok [].
Proof.
  intros Hfirst Hlast Hinv.
  unfold _generate_time_slots. rewrite Hfirst, Hlast. simpl.
  assert (Datetime.le first last = false) as Hle.
  { unfold Datetime.le.
    destruct (Z.ltb_spec (Datetime.toordinal first) (Datetime.toordinal last)),
             (Z.eqb_spec (Datetime.toordinal first) (Datetime.toordinal last));
      simpl; lia. }
  destruct (date_fuel first last); simpl; by rewrite Hle.
Qed.

(** the example of the specification: 2024-01-15 is a Monday, 2024-01-16
    is not *)
Example monday_window :
  _generate_time_slots sample_request = Ok [monday_09; monday_10].
Proof. vm_compute; reflexivity. Qed.

(** C3 fails for a window that ends after 23:00.  For the window 23:30 to
    23:59 on Monday 2024-01-15 the enumerator returns the slot from 23:30
    to 00:30: it compares the time of day of the slot's end with the end of
    the window, and the slot's end is on the next day. *)
Theorem slot_past_window_end :
  _generate_time_slots late_request
  = Ok [ {| slot_date := "2024-01-15"; slot_day := "Monday";
            slot_start_time := "23:30"; slot_end_time := "00:30" |} ]
  ∧ ∃ current_date window_start window_end slot_end,
      Datetime.strptime_Ymd (start_date late_request) = Ok current_date
      ∧ Datetime.strptime_HM (start_time late_request) = Ok window_start
      ∧ Datetime.strptime_HM (end_time late_request) = Ok window_end
      ∧ Datetime.add_hours (Datetime.combine current_date window_start) 1 = Ok slot_end
      ∧ Datetime.lt (Datetime.combine current_date window_end) slot_end = true.
Proof.
  split; [vm_compute; reflexivity|].
  exists {| Datetime.toordinal := 738900; Datetime.minute_of_day := 0 |}, 1410, 1439,
         {| Datetime.toordinal := 738901; Datetime.minute_of_day := 30 |}.
  repeat split; vm_compute; reflexivity.
Qed.

(** ** Further properties of the code *)

(** *** The scans of one slot *)

Lemma find_teacher_head (teachers : list Teacher) (time_slot : TimeSlot)
    (schedule : gmap string (gset string)) :
  (∀ teacher, teacher ∈ teachers → is_Some (schedule !! t_id teacher)) →
  _find_available_teacher_for_slot teachers time_slot schedule
  = Ok (head (filter (teacher_free schedule time_slot) teachers)).
Proof.
  intros Hcover. induction teachers as [|teacher teachers IH]; [done|].
  simpl. destruct (Hcover teacher ltac:(left)) as [busy Hbusy]. rewrite Hbusy.
  rewrite filter_cons.
  destruct (decide (teacher_free schedule time_slot teacher))
    as [(busy' & Hbusy' & Hfree & Hroom)|Hnot].
  - rewrite Hbusy in Hbusy'. injection Hbusy' as <-.
    rewrite bool_decide_eq_true_2 by done.
    apply Z.ltb_lt in Hroom. by rewrite Hroom.
  - rewrite IH by (intros ? ?; apply Hcover; by right).
    case_bool_decide as Hfree; [|done].
    destruct (Z.ltb_spec (Z.of_nat (length (day_slots_of (slot_date time_slot) busy)))
                (default 6 (t_max_classes_per_day teacher))) as [Hroom|_]; [|done].
    destruct Hnot. by exists busy.
Qed.

Lemma find_classroom_head (classrooms : list Classroom) (time_slot : TimeSlot)
    (schedule : gmap string (gset string)) :
  (∀ classroom, classroom ∈ classrooms → is_Some (schedule !! c_id classroom)) →
  _find_available_classroom_for_slot classrooms time_slot schedule
  = Ok (head (filter (classroom_free schedule time_slot) classrooms)).
Proof.
  intros Hcover. induction classrooms as [|classroom classrooms IH]; [done|].
  simpl. destruct (Hcover classroom ltac:(left)) as [busy Hbusy]. rewrite Hbusy.
  rewrite filter_cons.
  destruct (decide (classroom_free schedule time_slot classroom))
    as [(busy' & Hbusy' & Hfree)|Hnot].
  - rewrite Hbusy in Hbusy'. injection Hbusy' as <-.
    by rewrite bool_decide_eq_true_2 by done.
  - rewrite IH by (intros ? ?; apply Hcover; by right).
    case_bool_decide as Hfree; [|done].
    destruct Hnot. by exists busy.
Qed.

(** X1. [_find_available_teacher_for_slot] is first fit: when every
    candidate has an entry in the matrix, it returns the first candidate,
    in the order of the list, that is not marked for the slot key and has
    fewer keys on the slot's date than its cap ([max_classes_per_day], or 6
    when the record has none), and [None] when there is no such candidate.
    A candidate whose cap is 0 or less is never returned. *)
Theorem teacher_scan_first_fit (teachers : list Teacher) (time_slot : TimeSlot)
    (schedule : gmap string (gset string)) :
  (∀ teacher, teacher ∈ teachers → is_Some (schedule !! t_id teacher)) →
  _find_available_teacher_for_slot teachers time_slot schedule
  = Ok (head (filter (teacher_free schedule time_slot) teachers))
  ∧ ∀ teacher,
      _find_available_teacher_for_slot teachers time_slot schedule = Ok (Some teacher) →
      0 < default 6 (t_max_classes_per_day teacher).
Proof.
  intros Hcover. split; [by apply find_teacher_head|].
  intros teacher (_ & busy & _ & _ & Hroom)%find_teacher_Some. lia.
Qed.

Lemma teacher_scan_first_fit_witness :
  _find_available_teacher_for_slot [teacher_t1; teacher_t2] monday_10
    (teacher_schedule
       (started_state [monday_09; monday_10] [teacher_t1; teacher_t2] [room_c1]))
  = Ok (Some teacher_t1)
  ∧ _find_available_teacher_for_slot [teacher_t1] monday_10 (teacher_schedule busy_state)
    = Ok None.
Proof.
  split.
  - destruct (teacher_scan_first_fit [teacher_t1; teacher_t2] monday_10
                (teacher_schedule
                   (started_state [monday_09; monday_10] [teacher_t1; teacher_t2]
                      [room_c1]))) as [Hscan _].
    + intros teacher [->|[->|[]%elem_of_nil]%elem_of_cons]%elem_of_cons;
        eexists; vm_compute; reflexivity.
    + rewrite Hscan. vm_compute; reflexivity.
  - destruct (teacher_scan_first_fit [teacher_t1] monday_10
                (teacher_schedule busy_state)) as [Hscan _].
    + intros teacher ->%list_elem_of_singleton. eexists; vm_compute; reflexivity.
    + rewrite Hscan. vm_compute; reflexivity.
Defined.

(** X2. [_find_available_classroom_for_slot] is first fit: when every
    classroom has an entry in the matrix, it returns the first classroom of
    the list that is not marked for the slot key, whatever its capacity or
    section, and [None] when all are marked. *)
Theorem classroom_scan_first_fit (classrooms : list Classroom) (time_slot : TimeSlot)
    (schedule : gmap string (gset string)) :
  (∀ classroom, classroom ∈ classrooms → is_Some (schedule !! c_id classroom)) →
  _find_available_classroom_for_slot classrooms time_slot schedule
  = Ok (head (filter (classroom_free schedule time_slot) classrooms)).
Proof. apply find_classroom_head. Qed.

Lemma classroom_scan_first_fit_witness :
  _find_available_classroom_for_slot [room_c1; room_c2] monday_09
    (<["c2" := ∅]> (classroom_schedule busy_state))
  = Ok (Some room_c2).
Proof.
  rewrite (classroom_scan_first_fit [room_c1; room_c2] monday_09
             (<["c2" := ∅]> (classroom_schedule busy_state))).
  - vm_compute; reflexivity.
  - intros classroom [->|[->|[]%elem_of_nil]%elem_of_cons]%elem_of_cons;
      eexists; vm_compute; reflexivity.
Defined.

(** *** The matrix and the requirements *)

Lemma foldl_insert_empty_lookup {A : Type} (key_of : A → string) (docs : list A)
    (schedule : gmap string (gset string)) (resource_id : string) :
  foldl (λ sched doc, <[key_of doc := ∅]> sched) schedule docs !! resource_id
  = if bool_decide (resource_id ∈ key_of <$> docs) then Some ∅
    else schedule !! resource_id.
Proof.
  revert schedule. induction docs as [|doc docs IH]; intros schedule; [done|].
  rewrite fmap_cons. cbn [foldl]. rewrite IH.
  destruct (decide (resource_id ∈ key_of <$> docs)) as [Hin|Hout].
  - rewrite !bool_decide_eq_true_2; [done|by right|done].
  - rewrite (bool_decide_eq_false_2 _ Hout).
    destruct (decide (key_of doc = resource_id)) as [<-|Hne].
    + rewrite lookup_insert_eq. by rewrite bool_decide_eq_true_2 by left.
    + rewrite lookup_insert_ne by done.
      rewrite bool_decide_eq_false_2; [done|].
      by intros [->|?]%elem_of_cons.
Qed.

(** X3. [_initialize_schedule_matrix] gives the empty set to the id of
    every teacher and of every classroom, once however often the id
    occurs, and has no other key; the time slots play no part. *)
Theorem initial_matrix_entries (time_slots : list TimeSlot) (teachers : list Teacher)
    (classrooms : list Classroom) (resource_id : string) :
  (_initialize_schedule_matrix time_slots teachers classrooms).1 !! resource_id
  = (if bool_decide (resource_id ∈ t_id <$> teachers) then Some ∅ else None)
  ∧ (_initialize_schedule_matrix time_slots teachers classrooms).2 !! resource_id
    = (if bool_decide (resource_id ∈ c_id <$> classrooms) then Some ∅ else None).
Proof.
  unfold _initialize_schedule_matrix. simpl.
  by rewrite !foldl_insert_empty_lookup, !lookup_empty.
Qed.

Lemma requirements_foldl (time_slots : list TimeSlot) (subjects : list Subject)
    (requirements : gmap string Z) (subject_id : string) :
  foldl (λ requirements subject,
           let subject_id := s_id subject in
           let classes_per_week := default 2 (s_classes_per_week subject) in
           let weeks := Z.max 1 (distinct_dates time_slots / 7) in
           let total_classes := classes_per_week * weeks in
           <[subject_id := total_classes]> requirements)
        requirements subjects !! subject_id
  = match last (filter (λ subject, s_id subject = subject_id) subjects) with
    | Some subject => Some (total_classes time_slots subject)
    | None => requirements !! subject_id
    end.
Proof.
  revert requirements. induction subjects as [|subject subjects IH];
    intros requirements; [done|].
  simpl. rewrite IH. rewrite filter_cons.
  destruct (decide (s_id subject = subject_id)) as [<-|Hne].
  - rewrite last_cons. destruct (last _); [done|]. by rewrite lookup_insert_eq.
  - destruct (last _); [done|]. by rewrite lookup_insert_ne.
Qed.

Lemma requirement_is_Some (subjects : list Subject) (time_slots : list TimeSlot)
    (subject : Subject) :
  subject ∈ subjects →
  is_Some (subject_requirements subjects time_slots !! s_id subject).
Proof.
  intros Hin. unfold subject_requirements.
  rewrite requirements_foldl, lookup_empty.
  destruct (last _) as [s|] eqn:Hlast; [by eexists|].
  apply last_None in Hlast.
  assert (subject ∈ filter (λ s, s_id s = s_id subject) subjects) as Hf
    by (by apply list_elem_of_filter).
  rewrite Hlast in Hf. by apply elem_of_nil in Hf.
Qed.

(** X4. The requirement that [_generate_batch_timetable] records for a
    subject id is [classes_per_week] (2 when the record has none) times
    [max(1, distinct dates // 7)], taken from the last subject of the list
    that has this id; an id of no subject of the list has no requirement.
    So the lookup of line 152 cannot fail, a range with fewer than 14
    distinct dates counts as one week, and of two subjects with one id the
    later one decides for both. *)
Theorem requirement_of_subject (subjects : list Subject) (time_slots : list TimeSlot)
    (subject_id : string) :
  subject_requirements subjects time_slots !! subject_id
  = total_classes time_slots
      <$> last (filter (λ subject, s_id subject = subject_id) subjects)
  ∧ (∀ subject, subject ∈ subjects →
       is_Some (subject_requirements subjects time_slots !! s_id subject))
  ∧ (distinct_dates time_slots < 14 →
     ∀ subject, total_classes time_slots subject
                = default 2 (s_classes_per_week subject)).
Proof.
  assert (subject_requirements subjects time_slots !! subject_id
          = total_classes time_slots
              <$> last (filter (λ subject, s_id subject = subject_id) subjects))
    as Hlookup.
  { unfold subject_requirements. rewrite requirements_foldl, lookup_empty.
    by destruct (last _). }
  split_and!; [done| |].
  - intros subject Hin. by apply requirement_is_Some.
  - intros Hdates subject. unfold total_classes.
    pose proof (Z.div_lt_upper_bound (distinct_dates time_slots) 7 2
                  ltac:(lia) ltac:(lia)).
    lia.
Qed.

(** *** The time slot enumerator *)

Section TimeSlotsSound.
Import Datetime.



End TimeSlotsSound.




Lemma inverted_range_empty_witness :
  _generate_time_slots inverted_request = Ok [].
Proof.
  apply (inverted_range_empty inverted_request
           {| Datetime.toordinal := 738901; Datetime.minute_of_day := 0 |}
           {| Datetime.toordinal := 738900; Datetime.minute_of_day := 0 |});
    try (vm_compute; reflexivity).
Defined.

(** *** Exceptions of a call *)

Lemma head_filter_elem_of {A : Type} (P : A → Prop) `{!∀ x, Decision (P x)}
    (l : list A) (x : A) :
  head (filter P l) = Some x → x ∈ l ∧ P x.
Proof.
  intros Hhead.
  assert (x ∈ filter P l) as Hin.
  { destruct (filter P l); simplify_eq/=. left. }
  by apply list_elem_of_filter in Hin as [? ?].
Qed.

Lemma matrix_covers_step teachers classrooms batch subject available_teachers
    classrooms' time_slot σ σ' r :
  matrix_covers teachers classrooms σ →
  attempt_step batch subject available_teachers classrooms' time_slot σ σ' r →
  matrix_covers teachers classrooms σ'.
Proof.
  intros [Hteachers Hclassrooms].
  inversion 1 as [| | |teacher classroom tb cb Ht Hc Htb Hcb]; subst; try done.
  split; simpl.
  - intros t Hin. destruct (decide (t_id teacher = t_id t)) as [<-|Hne].
    + by rewrite lookup_insert_eq.
    + rewrite lookup_insert_ne by done. by apply Hteachers.
  - intros c Hin. destruct (decide (c_id classroom = c_id c)) as [<-|Hne].
    + by rewrite lookup_insert_eq.
    + rewrite lookup_insert_ne by done. by apply Hclassrooms.
Qed.

Lemma matrix_covers_started time_slots teachers classrooms :
  matrix_covers teachers classrooms (started_state time_slots teachers classrooms).
Proof.
  split; simpl.
  - intros teacher Hin. rewrite foldl_insert_empty_lookup.
    rewrite bool_decide_eq_true_2 by (by apply list_elem_of_fmap_2). by eexists.
  - intros classroom Hin. rewrite foldl_insert_empty_lookup.
    rewrite bool_decide_eq_true_2 by (by apply list_elem_of_fmap_2). by eexists.
Qed.

(** With every candidate and classroom in the matrix, the only exception
    of an attempt is the missing name of the subject. *)
Lemma try_assign_raises teachers classrooms batch subject available_teachers
    time_slot σ e :
  available_teachers ⊆ teachers →
  matrix_covers teachers classrooms σ →
  (_try_assign_slot batch subject available_teachers classrooms time_slot σ).2
  = Raise e →
  e = KeyError "name".
Proof.
  intros Hsub [Hteachers Hclassrooms].
  unfold _try_assign_slot, bind, get, lift; simpl.
  rewrite find_teacher_head by (intros ? ?; by apply Hteachers, Hsub).
  destruct (head (filter _ available_teachers)) as [teacher|] eqn:Hteacher; simpl.
  - rewrite find_classroom_head by done.
    destruct (head (filter _ classrooms)) as [classroom|] eqn:Hclassroom; simpl.
    + apply head_filter_elem_of in Hteacher as [Hin _].
      apply head_filter_elem_of in Hclassroom as [Hin' _].
      destruct (Hteachers teacher (Hsub _ Hin)) as [tb Htb].
      destruct (Hclassrooms classroom Hin') as [cb Hcb].
      unfold mark_teacher, mark_classroom, add_key; simpl.
      rewrite Htb; simpl. by rewrite Hcb.
    + destruct (s_name subject); simpl; [done|]. by intros [= <-].
  - destruct (s_name subject); simpl; [done|]. by intros [= <-].
Qed.

Section Exceptions.
Variable teachers : list Teacher.
Variable classrooms : list Classroom.
Variable time_slots : list TimeSlot.
Variable Inv : GenState → Prop.
Variable Expected : exn → Prop.

Hypothesis Inv_step :
  ∀ batch subject available_teachers time_slot σ,
    available_teachers ⊆ teachers →
    time_slot ∈ time_slots →
    Inv σ →
    Inv (_try_assign_slot batch subject available_teachers classrooms time_slot σ).1.

Hypothesis Raise_step :
  ∀ batch subject available_teachers time_slot σ e,
    available_teachers ⊆ teachers →
    time_slot ∈ time_slots →
    Inv σ →
    (_try_assign_slot batch subject available_teachers classrooms time_slot σ).2
    = Raise e →
    Expected e.

Lemma assign_loop_raises fuel batch subject available_teachers
    classes_needed classes_assigned slot_index σ e :
  available_teachers ⊆ teachers →
  Inv σ →
  (assign_loop fuel batch subject available_teachers classrooms time_slots
     classes_needed classes_assigned slot_index σ).2 = Raise e →
  Expected e.
Proof.
  intros Hsub. revert classes_assigned slot_index σ.
  induction fuel as [|fuel IH]; intros a i σ HI; rewrite assign_loop_unfold;
    destruct (_ && _) eqn:Hguard; try done.
  apply andb_true_iff in Hguard as [_ Hi%bool_decide_eq_true].
  unfold bind, lift.
  destruct (time_slots !! i) as [time_slot|] eqn:Hslot;
    [|by apply lookup_ge_None in Hslot; lia].
  pose proof (list_elem_of_lookup_2 _ _ _ Hslot) as Hin.
  pose proof (Inv_step batch subject available_teachers time_slot σ Hsub Hin HI)
    as Hinv.
  pose proof (Raise_step batch subject available_teachers time_slot σ e Hsub Hin HI)
    as Hraise.
  destruct (_try_assign_slot _ _ _ _ _ σ) as [σ1 [b|e'|]]; simpl in *.
  - by apply IH.
  - intros [= ->]. by apply Hraise.
  - done.
Qed.

Lemma subjects_loop_raises batch requirements subjects slot_index σ e :
  (∀ subject, subject ∈ subjects → is_Some (requirements !! s_id subject)) →
  Inv σ →
  (subjects_loop batch requirements teachers classrooms time_slots subjects
     slot_index σ).2 = Raise e →
  Expected e.
Proof.
  revert slot_index σ. induction subjects as [|subject subjects IH];
    intros i σ Hreq HI; [done|].
  simpl. unfold bind at 1, lift at 1.
  destruct (Hreq subject ltac:(left)) as [needed Hneeded]. rewrite Hneeded. simpl.
  unfold bind.
  pose proof (assign_loop_invariant teachers classrooms time_slots Inv Inv_step
                (length time_slots - i) batch subject
                (_find_available_teachers subject teachers) needed 0 i σ
                (find_available_teachers_subseteq _ _) HI) as Hinv.
  pose proof (assign_loop_raises (length time_slots - i) batch subject
                (_find_available_teachers subject teachers) needed 0 i σ e
                (find_available_teachers_subseteq _ _) HI) as Hraise.
  destruct (assign_loop _ _ _ _ _ _ _ _ _ σ) as [σ1 [[a i']|e'|]]; simpl in *.
  - apply IH; [|done]. intros ? ?. apply Hreq. by right.
  - intros [= ->]. by apply Hraise.
  - done.
Qed.

Lemma generate_batch_raises batch subjects σ e :
  Inv (with_batch_slots [] σ) →
  (_generate_batch_timetable batch subjects teachers classrooms time_slots σ).2
  = Raise e →
  Expected e.
Proof.
  intros HI.
  unfold _generate_batch_timetable, bind, set_batch_slots, modify, get, ret; simpl.
  match goal with
  | |- context [subjects_loop ?b ?rq ?t ?c ?ts ?ss ?i ?s] =>
      pose proof (subjects_loop_raises b rq ss i s e
                    (λ subject Hin, requirement_is_Some ss ts subject Hin) HI)
        as Hloop;
      destruct (subjects_loop b rq t c ts ss i s) as [σ1 [i'|e'|]]
  end; simpl in *; try done.
  intros [= ->]. by apply Hloop.
Qed.

Hypothesis Inv_rows : ∀ rows σ, Inv σ → Inv (with_batch_slots rows σ).
Hypothesis Expected_subjects : Expected (KeyError "subjects").

Lemma batches_loop_raises subjects batches timetable_slots σ e :
  Inv σ →
  (batches_loop subjects teachers classrooms time_slots batches
     timetable_slots σ).2 = Raise e →
  Expected e.
Proof.
  revert timetable_slots σ. induction batches as [|batch batches IH];
    intros acc σ HI; [done|].
  simpl. unfold bind at 1, lift at 1.
  destruct (subjects_of_batch batch subjects) as [batch_subjects|e'|] eqn:Hsub; simpl.
  - unfold bind.
    pose proof (generate_batch_invariant teachers classrooms time_slots Inv Inv_step
                  batch batch_subjects σ (Inv_rows [] σ HI)) as Hinv.
    pose proof (generate_batch_raises batch batch_subjects σ e (Inv_rows [] σ HI))
      as Hraise.
    destruct (_generate_batch_timetable _ _ _ _ _ σ) as [σ1 [rows|e''|]]; simpl in *.
    + by apply IH.
    + intros [= ->]. by apply Hraise.
    + done.
  - intros [= <-]. unfold subjects_of_batch in Hsub.
    destruct subjects; [done|]. destruct (b_subjects batch); simpl in Hsub; [done|].
    by injection Hsub as <-.
  - done.
Qed.

End Exceptions.

(** X6. A call can only end with one of these exceptions: the exception
    of a failed query of the store, the exception of
    [_generate_time_slots] (a date or a time that does not parse, or a
    date past 9999-12-31), [KeyError('subjects')] for a batch document
    without that key, and [KeyError('name')] for a subject document
    without a name when a conflict is to be logged for it.  It never
    indexes past the slot sequence and never misses a teacher, a classroom
    or a subject in its own tables. *)
Theorem call_exceptions (request : TimetableRequest) (store : Store)
    (σ : GenState) (e : exn) :
  generate_timetable_body request store initial_state = (σ, Raise e) →
  call_exception request store e.
Proof.
  unfold generate_timetable_body, call_exception, bind, lift.
  destruct (found_batches store) as [e1|batches]; simpl;
    [intros [= <- <-]; tauto|].
  destruct (found_subjects store) as [e1|subjects]; simpl;
    [intros [= <- <-]; tauto|].
  destruct (all_teachers store) as [e1|teachers]; simpl;
    [intros [= <- <-]; tauto|].
  destruct (all_classrooms store) as [e1|classrooms]; simpl;
    [intros [= <- <-]; tauto|].
  destruct (_generate_time_slots request) as [time_slots|e1|]; simpl;
    [|intros [= <- <-]; tauto|done].
  intros Hloop.
  assert (e = KeyError "subjects" ∨ e = KeyError "name") as Hcases; [|tauto].
  eapply (batches_loop_raises teachers classrooms time_slots
            (matrix_covers teachers classrooms)
            (λ e, e = KeyError "subjects" ∨ e = KeyError "name")).
  - intros b s a ts σ0 _ _ H0.
    eapply matrix_covers_step; [exact H0|apply try_assign_step].
  - intros b s a ts σ0 e0 Hsub _ H0 Hraise. right.
    by eapply try_assign_raises.
  - done.
  - by left.
  - apply matrix_covers_started.
  - unfold set_schedule_matrix, modify in Hloop. simpl in Hloop.
    fold (started_state time_slots teachers classrooms) in Hloop.
    by rewrite Hloop.
Qed.

Lemma call_exceptions_witness :
  call_exception sample_request malformed_store (KeyError "subjects").
Proof.
  apply (call_exceptions sample_request malformed_store
           (generate_timetable_body sample_request malformed_store initial_state).1).
  vm_compute; reflexivity.
Defined.

(** *** The occupancy matrix along a call *)

Lemma grown_from_refl (schedule : gmap string (gset string)) :
  grown_from schedule schedule.
Proof. split; [done|]. intros k busy Hk. by exists busy. Qed.

Lemma grown_from_trans (m1 m2 m3 : gmap string (gset string)) :
  grown_from m1 m2 → grown_from m2 m3 → grown_from m1 m3.
Proof.
  intros [Hdom12 H12] [Hdom23 H23]. split; [by rewrite Hdom23|].
  intros k busy Hk. destruct (H12 k busy Hk) as (busy2 & Hk2 & Hsub2).
  destruct (H23 k busy2 Hk2) as (busy3 & Hk3 & Hsub3).
  exists busy3. split; [done|]. by etrans.
Qed.

Lemma grown_from_add (schedule : gmap string (gset string)) resource_id busy slot_key :
  schedule !! resource_id = Some busy →
  grown_from schedule (<[resource_id := busy ∪ {[slot_key]}]> schedule).
Proof.
  intros Hbusy. split.
  - rewrite dom_insert_L. apply elem_of_dom_2 in Hbusy. set_solver.
  - intros k busy' Hk. destruct (decide (resource_id = k)) as [<-|Hne].
    + rewrite lookup_insert_eq. rewrite Hbusy in Hk. injection Hk as <-.
      eexists. split; [done|]. set_solver.
    + rewrite lookup_insert_ne by done. by exists busy'.
Qed.

Lemma grown_from_step (old_teachers old_classrooms : gmap string (gset string))
    batch subject available_teachers classrooms time_slot σ σ' r :
  grown_from old_teachers (teacher_schedule σ)
  ∧ grown_from old_classrooms (classroom_schedule σ) →
  attempt_step batch subject available_teachers classrooms time_slot σ σ' r →
  grown_from old_teachers (teacher_schedule σ')
  ∧ grown_from old_classrooms (classroom_schedule σ').
Proof.
  intros [Hteachers Hclassrooms].
  inversion 1 as [| | |teacher classroom tb cb Ht Hc Htb Hcb]; subst; try done.
  simpl. split; (eapply grown_from_trans; [eassumption|by apply grown_from_add]).
Qed.

(** X7. Reservations are permanent during a call.  Whatever the loop over
    the batches does, and however it ends, the matrix afterwards has the
    keys it had before, no more and no fewer, and every teacher and
    classroom is still marked for every slot key it was marked for:
    nothing is ever unmarked, so what one batch reserved blocks the
    batches after it. *)
Theorem matrix_only_grows (subjects : list Subject) (teachers : list Teacher)
    (classrooms : list Classroom) (time_slots : list TimeSlot)
    (batches : list Batch) (timetable_slots : list TimetableSlot) (σ : GenState) :
  grown_from (teacher_schedule σ)
    (teacher_schedule
       (batches_loop subjects teachers classrooms time_slots batches
          timetable_slots σ).1)
  ∧ grown_from (classroom_schedule σ)
      (classroom_schedule
         (batches_loop subjects teachers classrooms time_slots batches
            timetable_slots σ).1).
Proof.
  apply (batches_loop_invariant teachers classrooms time_slots
           (λ σ', grown_from (teacher_schedule σ) (teacher_schedule σ')
                  ∧ grown_from (classroom_schedule σ) (classroom_schedule σ'))).
  - intros b s a ts σ0 _ _ H0.
    eapply grown_from_step; [exact H0|apply try_assign_step].
  - done.
  - split; apply grown_from_refl.
Qed.

(** *** The loop of one subject *)

Lemma assign_loop_bound fuel batch subject available_teachers classrooms time_slots
    classes_needed classes_assigned slot_index σ σ' classes_assigned' slot_index' :
  assign_loop fuel batch subject available_teachers classrooms time_slots
    classes_needed classes_assigned slot_index σ
  = (σ', Ok (classes_assigned', slot_index')) →
  classes_assigned ≤ classes_assigned' ≤ Z.max classes_assigned classes_needed.
Proof.
  revert classes_assigned slot_index σ.
  induction fuel as [|fuel IH]; intros a i σ; rewrite assign_loop_unfold;
    destruct (a <? classes_needed) eqn:Ha; simpl;
    try (intros [= <- <- <-]; lia).
  - by case_bool_decide; [|intros [= <- <- <-]; lia].
  - case_bool_decide; [|intros [= <- <- <-]; lia].
    apply Z.ltb_lt in Ha. unfold bind, lift.
    destruct (time_slots !! i) as [time_slot|]; [|done].
    destruct (_try_assign_slot _ _ _ _ _ σ) as [σ1 [ok|e|]]; simpl; [|done|done].
    intros Hrun. apply IH in Hrun. destruct ok; lia.
Qed.

(** X8. The loop of one subject never reserves more classes than the
    subject needs: it ends with [classes_assigned] between 0 and
    [max(0, classes_needed)], and [classes_assigned] is the number of
    reservations among the attempts it made, all of them for this subject
    and batch.  With a requirement of 0 or less it makes no attempt and
    leaves the cursor and the state as they are. *)
Theorem never_more_than_needed (fuel : nat) (batch : Batch) (subject : Subject)
    (available_teachers : list Teacher) (classrooms : list Classroom)
    (time_slots : list TimeSlot) (classes_needed : Z) (slot_index : nat)
    (σ σ' : GenState) (classes_assigned : Z) (slot_index' : nat) :
  assign_loop fuel batch subject available_teachers classrooms time_slots
    classes_needed 0 slot_index σ
  = (σ', Ok (classes_assigned, slot_index')) →
  0 ≤ classes_assigned ≤ Z.max 0 classes_needed
  ∧ (∃ new,
       attempts σ' = attempts σ ++ new
       ∧ Forall (λ att, att_subject att = subject ∧ att_batch att = batch) new
       ∧ Z.of_nat (length (omap reservation_of new)) = classes_assigned)
  ∧ (classes_needed ≤ 0 → σ' = σ ∧ slot_index' = slot_index).
Proof.
  intros Hrun. split_and!.
  - apply assign_loop_bound in Hrun. lia.
  - apply assign_loop_bound in Hrun. lia.
  - apply assign_loop_Ok in Hrun as (new & Hatt & _ & _ & Hall & _ & _ & Hcount & _).
    exists new. split_and!; [done|done|lia].
  - intros Hnone. rewrite assign_loop_unfold in Hrun.
    assert ((0 <? classes_needed) = false) as Hguard by (apply Z.ltb_ge; lia).
    rewrite Hguard in Hrun. simpl in Hrun. by injection Hrun as <- _ <-.
Qed.

Lemma never_more_than_needed_witness :
  let run :=
    assign_loop 2 batch_b1 math [teacher_t2] [room_c1] [monday_09; monday_10]
      1 0 0 sample_state_t2 in
  run.2 = Ok (1, 1%nat) ∧ 0 ≤ 1 ≤ Z.max 0 1.
Proof.
  intros run. split; [vm_compute; reflexivity|].
  destruct (never_more_than_needed 2 batch_b1 math [teacher_t2] [room_c1]
              [monday_09; monday_10] 1 0 sample_state_t2 run.1 1 1%nat)
    as ((Hlo & Hhi) & _); [vm_compute; reflexivity|].
  split; [exact Hlo|exact Hhi].
Defined.

(** *** Whole calls, continued *)

Lemma batches_loop_reachable subjects teachers classrooms time_slots batches :
  reachable teachers classrooms time_slots
    (batches_loop subjects teachers classrooms time_slots batches []
       (started_state time_slots teachers classrooms)).1.
Proof.
  apply (batches_loop_invariant teachers classrooms time_slots
           (reachable teachers classrooms time_slots)).
  - intros. by apply reachable_attempt.
  - intros. by apply reachable_reset.
  - apply reachable_start.
Qed.

Lemma reachable_within_caps teachers classrooms time_slots σ :
  NoDup (t_id <$> teachers) →
  (∀ teacher, teacher ∈ teachers → 0 ≤ default 6 (t_max_classes_per_day teacher)) →
  Forall dated time_slots →
  reachable teachers classrooms time_slots σ →
  within_caps teachers (teacher_schedule σ).
Proof.
  intros Hnodup Hcaps Hdated.
  induction 1 as [|batch subject available_teachers time_slot σ Hsub Hin _ IH
                  |rows σ _ IH].
  - by apply within_caps_started.
  - eapply within_caps_step; [done|exact Hsub| |exact IH|apply try_assign_step].
    by eapply Forall_forall in Hdated.
  - done.
Qed.

(** X9. A teacher whose record has no [max_classes_per_day] is held to 6
    classes a day: in every state that a call goes through, for a roster
    with distinct ids and caps that are not negative, the matrix holds at
    most 6 slot keys of any one date for such a teacher. *)
Theorem default_cap_is_six (request : TimetableRequest) (teachers : list Teacher)
    (classrooms : list Classroom) (time_slots : list TimeSlot) (σ : GenState)
    (teacher : Teacher) (busy : gset string) (d : Datetime.datetime) :
  _generate_time_slots request = Ok time_slots →
  NoDup (t_id <$> teachers) →
  (∀ teacher max_classes,
     teacher ∈ teachers → t_max_classes_per_day teacher = Some max_classes →
     0 ≤ max_classes) →
  reachable teachers classrooms time_slots σ →
  teacher ∈ teachers →
  t_max_classes_per_day teacher = None →
  teacher_schedule σ !! t_id teacher = Some busy →
  Z.of_nat (day_load (Datetime.strftime_Ymd d) busy) ≤ 6.
Proof.
  intros Hts Hnodup Hcaps Hσ Hteacher Hnone Hbusy.
  assert (within_caps teachers (teacher_schedule σ)) as Hinv.
  { eapply reachable_within_caps; [done| |by eapply generate_time_slots_dated|done].
    intros t Ht. destruct (t_max_classes_per_day t) as [m|] eqn:Hm; simpl; [|lia].
    by eapply Hcaps. }
  specialize (Hinv teacher busy d Hteacher Hbusy). by rewrite Hnone in Hinv.
Qed.

Lemma default_cap_is_six_witness :
  teacher_schedule (generate_timetable_body sample_request store_with_t3
                      initial_state).1 !! "t3"
  = Some ({["2024-01-15_09:00"]} ∪ {["2024-01-15_10:00"]})
  ∧ Z.of_nat (day_load "2024-01-15"
                ({["2024-01-15_09:00"]} ∪ {["2024-01-15_10:00"]})) ≤ 6.
Proof.
  assert (teacher_schedule (generate_timetable_body sample_request store_with_t3
                              initial_state).1 !! "t3"
          = Some ({["2024-01-15_09:00"]} ∪ {["2024-01-15_10:00"]})) as Hbusy
    by (vm_compute; reflexivity).
  split; [exact Hbusy|].
  change "2024-01-15"
    with (Datetime.strftime_Ymd
            {| Datetime.toordinal := 738900; Datetime.minute_of_day := 0 |}).
  eapply (default_cap_is_six sample_request [teacher_t3] [room_c1]
            [monday_09; monday_10] _ teacher_t3);
    [vm_compute; reflexivity|apply NoDup_singleton| | |by left|reflexivity|exact Hbusy].
  - intros teacher max_classes ->%list_elem_of_singleton. discriminate.
  - change (generate_timetable_body sample_request store_with_t3 initial_state).1
      with (batches_loop [math; physics] [teacher_t3] [room_c1] [monday_09; monday_10]
              [batch_b1] []
              (started_state [monday_09; monday_10] [teacher_t3] [room_c1])).1.
    apply batches_loop_reachable.
Defined.

Lemma reservations_none_step batch subject available_teachers classrooms time_slot
    σ σ' r :
  available_teachers = [] ∨ classrooms = [] →
  reservations σ = [] →
  attempt_step batch subject available_teachers classrooms time_slot σ σ' r →
  reservations σ' = [].
Proof.
  intros Hempty Hnone.
  inversion 1 as [| | |teacher classroom tb cb Ht Hc Htb Hcb]; subst;
    unfold reservations in *; simpl; try done;
    try (rewrite omap_app, Hnone; done).
  destruct Hempty as [-> | ->]; done.
Qed.

(** X10. Without teachers or without classrooms nothing is scheduled: a
    call on an empty roster, or on an empty list of classrooms, makes no
    reservation and returns no row, however many batches, subjects and
    slots there are. *)
Theorem no_resources_no_rows (request : TimetableRequest) (store : Store)
    (rows : list TimetableSlot) (conflicts : list string) :
  all_teachers store = inr [] ∨ all_classrooms store = inr [] →
  generate_timetable request store = Some (rows, conflicts) →
  rows = []
  ∧ reservations (generate_timetable_body request store initial_state).1 = [].
Proof.
  intros Hempty Hcall.
  assert (reservations (generate_timetable_body request store initial_state).1 = []
          ∧ ∀ rows', (generate_timetable_body request store initial_state).2 = Ok rows' →
                     rows' = []) as [Hnone Hrows].
  { destruct (generate_timetable_body_run request store)
      as [e|batches subjects teachers classrooms time_slots Hb Hs Ht Hc Hts];
      [done|].
    assert (reservations
              (batches_loop subjects teachers classrooms time_slots batches []
                 (started_state time_slots teachers classrooms)).1 = []) as Hnone.
    { apply (batches_loop_invariant teachers classrooms time_slots
               (λ σ, reservations σ = [])); [|done|done].
      intros b s a ts σ0 Hsub _ H0.
      eapply reservations_none_step; [|exact H0|apply try_assign_step].
      destruct Hempty as [Hteachers|Hclassrooms].
      - left. rewrite Ht in Hteachers. injection Hteachers as ->.
        destruct a as [|t a]; [done|].
        exfalso. apply (not_elem_of_nil t), Hsub. by left.
      - right. rewrite Hc in Hclassrooms. by injection Hclassrooms as ->. }
    split; [done|]. intros rows' Hok.
    destruct (batches_loop _ _ _ _ _ _ _) as [σ1 r1] eqn:Hloop. simpl in *. subst r1.
    apply batches_loop_rows in Hloop; [|done]. by rewrite Hnone in Hloop. }
  split; [|done].
  unfold generate_timetable in Hcall.
  destruct (generate_timetable_body request store initial_state) as [σ [rows'|e|]];
    simpl in *; [|by injection Hcall as <- _|done].
  injection Hcall as <- _. by apply Hrows.
Qed.

Lemma no_resources_no_rows_witness :
  generate_timetable sample_request store_without_teachers
  = Some ([], ["No available teacher for Math at 09:00 on Monday";
               "No available teacher for Math at 10:00 on Monday"])
  ∧ reservations (generate_timetable_body sample_request store_without_teachers
                    initial_state).1 = [].
Proof.
  assert (generate_timetable sample_request store_without_teachers
          = Some ([], ["No available teacher for Math at 09:00 on Monday";
                       "No available teacher for Math at 10:00 on Monday"]))
    as Hcall by (vm_compute; reflexivity).
  split; [exact Hcall|].
  by eapply (no_resources_no_rows sample_request store_without_teachers);
    [left; reflexivity|exact Hcall].
Defined.

(** X11. When the enumerator returns no slot (no permitted day in the
    range, an inverted range, a window shorter than an hour), no attempt
    is made.  A call that does not raise returns no row and no conflict,
    although nothing of what the batches need was scheduled; a call that
    raises returns the message of the exception alone. *)
Theorem no_slots_no_conflicts (request : TimetableRequest) (store : Store) :
  _generate_time_slots request = Ok [] →
  attempts (generate_timetable_body request store initial_state).1 = []
  ∧ (∀ rows, (generate_timetable_body request store initial_state).2 = Ok rows →
       generate_timetable request store = Some ([], []))
  ∧ (∀ e, (generate_timetable_body request store initial_state).2 = Raise e →
       generate_timetable request store
       = Some ([], ["Failed to generate timetable: " +:+ str_exn e])).
Proof.
  intros Hts.
  assert (attempts (generate_timetable_body request store initial_state).1 = []
          ∧ conflicts (generate_timetable_body request store initial_state).1 = []
          ∧ ∀ rows, (generate_timetable_body request store initial_state).2 = Ok rows →
                    rows = []) as (Hatt & Hconf & Hrows).
  { destruct (generate_timetable_body_run request store)
      as [e|batches subjects teachers classrooms time_slots Hb Hs Ht Hc Hts'];
      [done|].
    rewrite Hts in Hts'. injection Hts' as <-.
    assert (attempts (batches_loop subjects teachers classrooms [] batches []
                        (started_state [] teachers classrooms)).1 = []
            ∧ conflicts (batches_loop subjects teachers classrooms [] batches []
                           (started_state [] teachers classrooms)).1 = [])
      as [Hatt Hconf].
    { apply (batches_loop_invariant teachers classrooms []
               (λ σ, attempts σ = [] ∧ conflicts σ = [])); [|done|done].
      by intros b s a ts σ0 _ Hin%elem_of_nil. }
    split_and!; [done|done|]. intros rows Hok.
    destruct (batches_loop _ _ _ _ _ _ _) as [σ1 r1] eqn:Hloop. simpl in *. subst r1.
    apply batches_loop_rows in Hloop; [|done].
    unfold reservations in Hloop. by rewrite Hatt in Hloop. }
  split_and!; [done| |].
  - intros rows Hok. unfold generate_timetable.
    destruct (generate_timetable_body request store initial_state) as [σ r].
    simpl in *. subst r. by rewrite Hconf, (Hrows rows).
  - intros e Hraise. unfold generate_timetable, failure_message.
    destruct (generate_timetable_body request store initial_state) as [σ r].
    simpl in *. subst r. by rewrite Hconf.
Qed.

Lemma no_slots_no_conflicts_witness :
  generate_timetable tuesday_request sample_store = Some ([], [])
  ∧ generate_timetable tuesday_request malformed_store
    = Some ([], ["Failed to generate timetable: 'subjects'"]).
Proof.
  split.
  - destruct (no_slots_no_conflicts tuesday_request sample_store) as (_ & Hok & _);
      [vm_compute; reflexivity|].
    apply (Hok []). vm_compute; reflexivity.
  - destruct (no_slots_no_conflicts tuesday_request malformed_store) as (_ & _ & Hraise);
      [vm_compute; reflexivity|].
    apply (Hraise (KeyError "subjects")). vm_compute; reflexivity.
Defined.

(** *** Where the rows come from *)

Section Provenance.
Variable batches : list Batch.
Variable subjects : list Subject.
Variable teachers : list Teacher.
Variable classrooms : list Classroom.
Variable time_slots : list TimeSlot.


Lemma provenance_step batch subject time_slot σ :
  listed batches subjects batch subject →
  time_slot ∈ time_slots →
  from_snapshot batches subjects teachers classrooms time_slots σ →
  from_snapshot batches subjects teachers classrooms time_slots
    (_try_assign_slot batch subject (_find_available_teachers subject teachers)
           classrooms time_slot σ).1.
Proof.
  intros Hlisted Hslot Hσ.
  destruct (_try_assign_slot _ _ _ _ _ σ) as [σ' r] eqn:Hstep.
  apply try_assign_inv in Hstep. simpl.
  unfold from_snapshot, reservations in *.
  inversion Hstep as [| | |teacher classroom tb cb Ht Hc Htb Hcb]; subst; simpl;
    try done; try (rewrite omap_app, app_nil_r; done).
  rewrite omap_app. apply Forall_app. split; [done|].
  apply Forall_singleton. split_and!; simpl; [done| | |done].
  - exists teacher. by apply find_teacher_Some in Ht as [? _].
  - exists classroom. by apply find_classroom_Some in Hc as [? _].
Qed.

Lemma assign_loop_provenance fuel batch subject classes_needed classes_assigned
    slot_index σ :
  listed batches subjects batch subject →
  from_snapshot batches subjects teachers classrooms time_slots σ →
  from_snapshot batches subjects teachers classrooms time_slots
    (assign_loop fuel batch subject (_find_available_teachers subject teachers)
           classrooms time_slots classes_needed classes_assigned slot_index σ).1.
Proof.
  intros Hlisted. revert classes_assigned slot_index σ.
  induction fuel as [|fuel IH]; intros a i σ Hσ; rewrite assign_loop_unfold;
    destruct (_ && _); try done.
  unfold bind, lift.
  destruct (time_slots !! i) as [time_slot|] eqn:Hslot; [|done].
  pose proof (provenance_step batch subject time_slot σ Hlisted
                (list_elem_of_lookup_2 _ _ _ Hslot) Hσ) as Hstep.
  destruct (_try_assign_slot _ _ _ _ _ σ) as [σ1 [b|e|]]; simpl in *; [|done|done].
  by apply IH.
Qed.

Lemma subjects_loop_provenance batch requirements batch_subjects slot_index σ :
  Forall (listed batches subjects batch) batch_subjects →
  from_snapshot batches subjects teachers classrooms time_slots σ →
  from_snapshot batches subjects teachers classrooms time_slots
    (subjects_loop batch requirements teachers classrooms time_slots
           batch_subjects slot_index σ).1.
Proof.
  revert slot_index σ.
  induction batch_subjects as [|subject batch_subjects IH]; intros i σ Hall Hσ;
    [done|].
  apply Forall_cons in Hall as [Hlisted Hall].
  simpl. unfold bind at 1, lift at 1.
  destruct (requirements !! s_id subject) as [needed|]; simpl; [|done].
  unfold bind.
  pose proof (assign_loop_provenance (length time_slots - i) batch subject needed 0 i σ
                Hlisted Hσ) as Hloop.
  destruct (assign_loop _ _ _ _ _ _ _ _ _ σ) as [σ1 [[a i']|e|]]; simpl in *;
    [by apply IH|done|done].
Qed.

Lemma subjects_of_batch_listed batch batch_subjects :
  batch ∈ batches →
  subjects_of_batch batch subjects = Ok batch_subjects →
  Forall (listed batches subjects batch) batch_subjects.
Proof.
  intros Hbatch. unfold subjects_of_batch.
  destruct subjects as [|s0 ss] eqn:Hsubjects; [by intros [= <-]|].
  destruct (b_subjects batch) as [wanted|] eqn:Hwanted; simpl; [|done].
  intros [= <-]. apply Forall_forall. intros s [Hin Hs]%list_elem_of_filter.
  split_and!; [done|done|]. by exists wanted.
Qed.

Lemma batches_loop_provenance batches' timetable_slots σ :
  batches' ⊆ batches →
  from_snapshot batches subjects teachers classrooms time_slots σ →
  from_snapshot batches subjects teachers classrooms time_slots
    (batches_loop subjects teachers classrooms time_slots batches'
           timetable_slots σ).1.
Proof.
  revert timetable_slots σ. induction batches' as [|batch batches' IH];
    intros acc σ Hsub Hσ; [done|].
  simpl. unfold bind at 1, lift at 1.
  destruct (subjects_of_batch batch subjects) as [batch_subjects|e|] eqn:Hbs; simpl;
    [|done|done].
  apply subjects_of_batch_listed in Hbs; [|apply Hsub; by left].
  unfold _generate_batch_timetable, bind, set_batch_slots, modify, get, ret; simpl.
  match goal with
  | |- context [subjects_loop ?b ?rq ?t ?c ?ts ?ss ?i ?s] =>
      pose proof (subjects_loop_provenance b rq ss i s Hbs Hσ) as Hloop;
      destruct (subjects_loop b rq t c ts ss i s) as [σ1 [i'|e|]]
  end; simpl in *; [|done|done].
  apply IH; [|done]. intros b Hb. apply Hsub. by right.
Qed.

End Provenance.

(** X12. Every row that a call returns is made from the fetched snapshot:
    its batch is a fetched batch, its subject a fetched subject whose id
    that batch lists, its teacher one of the candidates that
    [_find_available_teachers] gives for the subject, its classroom one of
    the fetched classrooms, its day and times those of an enumerated slot,
    and its section one of the sections of the batch (["A"] without the
    key). *)
Theorem rows_from_snapshot (request : TimetableRequest) (store : Store)
    (batches : list Batch) (subjects : list Subject) (teachers : list Teacher)
    (classrooms : list Classroom) (time_slots : list TimeSlot)
    (rows : list TimetableSlot) (conflicts : list string) :
  found_batches store = inr batches →
  found_subjects store = inr subjects →
  all_teachers store = inr teachers →
  all_classrooms store = inr classrooms →
  _generate_time_slots request = Ok time_slots →
  generate_timetable request store = Some (rows, conflicts) →
  Forall (row_of_snapshot batches subjects teachers classrooms time_slots) rows.
Proof.
  intros Hb Hs Ht Hc Hts Hcall.
  assert (∀ rows',
            (generate_timetable_body request store initial_state).2 = Ok rows' →
            Forall (row_of_snapshot batches subjects teachers classrooms time_slots)
                   rows') as Hrows.
  { destruct (generate_timetable_body_run request store)
      as [e|batches0 subjects0 teachers0 classrooms0 time_slots0 Hb' Hs' Ht' Hc' Hts'];
      [done|].
    rewrite Hb in Hb'. injection Hb' as <-. rewrite Hs in Hs'. injection Hs' as <-.
    rewrite Ht in Ht'. injection Ht' as <-. rewrite Hc in Hc'. injection Hc' as <-.
    rewrite Hts in Hts'. injection Hts' as <-.
    intros rows' Hok.
    pose proof (batches_loop_provenance batches subjects teachers classrooms time_slots
                  batches [] (started_state time_slots teachers classrooms)
                  (λ b Hin, Hin) (Forall_nil_2 _)) as Hsound.
    destruct (batches_loop _ _ _ _ _ _ _) as [σ1 r1] eqn:Hloop. simpl in *. subst r1.
    apply batches_loop_rows in Hloop; [|done]. subst rows'.
    apply Forall_forall. intros row (r & Hr & Hrow)%list_elem_of_In%in_flat_map.
    apply list_elem_of_In in Hr, Hrow.
    eapply Forall_forall in Hsound as (Hlisted & (teacher & Hteacher & Htid)
                                       & (classroom & Hclassroom & Hcid) & Hslot);
      [|exact Hr].
    unfold fan_out in Hrow.
    apply list_elem_of_fmap in Hrow as (section & -> & Hsection).
    exists (res_batch r), (res_subject r), teacher, classroom, (res_time_slot r).
    simpl. rewrite <- Htid, <- Hcid. by split_and!. }
  unfold generate_timetable in Hcall.
  destruct (generate_timetable_body request store initial_state) as [σ [rows'|e|]];
    simpl in *; [|by injection Hcall as <- _|done].
  injection Hcall as <- _. by apply Hrows.
Qed.

Lemma rows_from_snapshot_witness :
  ∃ rows conflicts,
    generate_timetable sample_request sample_store = Some (rows, conflicts)
    ∧ Forall (row_of_snapshot [batch_b1] [math; physics] [teacher_t1]
                [room_c1] [monday_09; monday_10]) rows
    ∧ length rows = 2%nat.
Proof.
  destruct (generate_timetable sample_request sample_store) as [[rows conflicts]|]
    eqn:Hcall; [|vm_compute in Hcall; discriminate].
  exists rows, conflicts. split_and!; [reflexivity| |].
  - by eapply (rows_from_snapshot sample_request sample_store);
      [reflexivity|reflexivity|reflexivity|reflexivity|vm_compute; reflexivity
      |exact Hcall].
  - vm_compute in Hcall. by injection Hcall as <- _.
Defined.

(** *** The route [POST /generate-timetable] *)

Lemma attempts_counted request store :
  (length (conflicts (generate_timetable_body request store initial_state).1)
   + length (reservations (generate_timetable_body request store initial_state).1)
   = length (attempts (generate_timetable_body request store initial_state).1))%nat.
Proof.
  destruct (generate_timetable_body_run request store)
    as [e|batches subjects teachers classrooms time_slots _ _ _ _ _]; [done|].
  apply (batches_loop_invariant teachers classrooms time_slots
           (λ σ, (length (conflicts σ) + length (reservations σ)
                  = length (attempts σ))%nat)); [|done|done].
  intros batch subject available_teachers time_slot σ _ _ Hσ.
  destruct (_try_assign_slot _ _ _ _ _ σ) as [σ' r] eqn:Hstep.
  apply try_assign_inv in Hstep. simpl. destruct r as [ok|e|].
  - apply attempt_step_Ok in Hstep as (att & Ha & Hc & _ & _ & _ & Hr & Hl).
    unfold reservations in *.
    rewrite Ha, Hc, omap_app, !length_app, Hr, Hl. simpl. destruct ok; lia.
  - by inversion Hstep; subst.
  - inversion Hstep.
Qed.

(** X13. The route answers with a response and never with the status 500,
    because [generate_timetable] catches what its body raises.  The
    response carries the rows and conflicts of the generator; [success] is
    true exactly when the body returned and every attempt it made was a
    reservation, and the message follows [success].  When the body raised,
    the timetable is empty and the last conflict is the failure message. *)
Theorem route_response (request : TimetableRequest) (store : Store) :
  ∃ body,
    route_generate_timetable request store = Some (Respond body)
    ∧ generate_timetable request store
      = Some (resp_timetable body, resp_conflicts body)
    ∧ (resp_success body = true
       ↔ (∃ rows, (generate_timetable_body request store initial_state).2 = Ok rows)
         ∧ length (reservations (generate_timetable_body request store initial_state).1)
           = length (attempts (generate_timetable_body request store initial_state).1))
    ∧ (resp_message body
       = if resp_success body then "Timetable generated successfully"
         else "Timetable generated with conflicts")
    ∧ (∀ e, (generate_timetable_body request store initial_state).2 = Raise e →
         resp_success body = false
         ∧ resp_timetable body = []
         ∧ last (resp_conflicts body)
           = Some ("Failed to generate timetable: " +:+ str_exn e)).
Proof.
  pose proof (attempts_counted request store) as Hcount.
  pose proof (generate_timetable_body_fuel request store) as Hfuel.
  unfold route_generate_timetable, call_generator, generate_timetable.
  destruct (generate_timetable_body request store initial_state) as [σ [rows|e|]];
    simpl in *; [| |done].
  - eexists. split; [reflexivity|]. simpl. split_and!; [done| |done|done].
    unfold no_conflict. rewrite bool_decide_eq_true. split.
    + intros Hnone. split; [by eexists|lia].
    + intros [_ Hall]. lia.
  - eexists. split; [reflexivity|]. simpl.
    assert (no_conflict (conflicts σ ++ [failure_message e]) = false) as Hfalse.
    { unfold no_conflict. apply bool_decide_eq_false. rewrite length_app. simpl. lia. }
    rewrite Hfalse. split_and!; [done| |done|].
    + split; [done|]. by intros [[rows [=]] _].
    + intros e' [= <-]. split_and!; [done|done|]. by rewrite last_snoc.
Qed.

(** *** Edges of the slot enumerator *)

Section TimeSlotEdges.
Import Datetime.

Lemma le_midnight a b : le (midnight a) (midnight b) = (a <=? b).
Proof.
  unfold le. simpl.
  destruct (Z.ltb_spec a b), (Z.eqb_spec a b), (Z.leb_spec a b); simpl; lia.
Qed.

Lemma date_loop_idle fuel request last ordinal slots :
  1 ≤ ordinal → last < _MAXORDINAL →
  (∀ day, ordinal ≤ day ≤ last → strftime_A (midnight day) ∉ working_days request) →
  (date_fuel (midnight ordinal) (midnight last) ≤ fuel)%nat →
  date_loop fuel request (midnight last) (midnight ordinal) slots = Ok slots.
Proof.
  revert ordinal.
  induction fuel as [|fuel IH]; intros ordinal Hord Hlast Hidle Hfuel; simpl;
    rewrite le_midnight; unfold date_fuel in Hfuel; simpl in Hfuel;
    destruct (Z.leb_spec ordinal last) as [Hin|Hout]; [lia|done| |done].
  unfold day_slots. rewrite bool_decide_eq_false_2 by (apply Hidle; lia). simpl.
  rewrite add_days_midnight by lia. simpl.
  apply IH; [lia|lia| |unfold date_fuel; simpl; lia].
  intros day Hday. apply Hidle. lia.
Qed.

Lemma date_loop_overflow fuel request ordinal slots rows :
  ordinal ≤ _MAXORDINAL →
  date_loop fuel request (midnight _MAXORDINAL) (midnight ordinal) slots ≠ Ok rows.
Proof.
  revert ordinal slots.
  induction fuel as [|fuel IH]; intros ordinal slots Hord; simpl;
    rewrite le_midnight; destruct (Z.leb_spec ordinal _MAXORDINAL) as [Hin|Hout];
    [done|lia| |lia].
  destruct (day_slots request (midnight ordinal) slots) as [slots'|e|]; simpl;
    [|done|done].
  unfold add_days, add_minutes, midnight. simpl.
  change ((0 + 1 * 1440) / 1440) with 1. change ((0 + 1 * 1440) mod 1440) with 0.
  destruct (Z.leb_spec (ordinal + 1) _MAXORDINAL) as [Hnext|Hlast_day].
  - destruct (1 <=? ordinal + 1); simpl; [|done]. apply IH. lia.
  - by rewrite andb_false_r.
Qed.

End TimeSlotEdges.

(** X14. The window times are parsed only on a permitted day.  When no
    date of the range has a permitted weekday name, the enumerator returns
    no slot whatever [start_time] and [end_time] hold, also strings that
    are no times at all. *)
Theorem times_unchecked_without_working_day (request : TimetableRequest)
    (first last : Datetime.datetime) :
  Datetime.strptime_Ymd (start_date request) = Ok first →
  Datetime.strptime_Ymd (end_date request) = Ok last →
  1 ≤ Datetime.toordinal first →
  Datetime.toordinal last < Datetime._MAXORDINAL →
  (∀ day, Datetime.toordinal first ≤ day ≤ Datetime.toordinal last →
     Datetime.strftime_A (midnight day) ∉ working_days request) →
  _generate_time_slots request = Ok [].
Proof.
  intros Hfirst Hlast Hlo Hhi Hidle.
  unfold _generate_time_slots. rewrite Hfirst, Hlast. simpl.
  apply strptime_Ymd_midnight in Hfirst, Hlast.
  destruct first as [f mf], last as [l ml]. simpl in *. subst mf ml.
  by apply (date_loop_idle _ request l f []).
Qed.

Lemma times_unchecked_without_working_day_witness :
  Datetime.strptime_HM (start_time garbled_request)
  = Raise (ValueError "time data '9am' does not match format '%H:%M'")
  ∧ _generate_time_slots garbled_request = Ok [].
Proof.
  split; [vm_compute; reflexivity|].
  apply (times_unchecked_without_working_day garbled_request
           (midnight 738901) (midnight 738901));
    [vm_compute; reflexivity|vm_compute; reflexivity|simpl; lia
    |vm_compute; reflexivity|].
  intros day Hday. simpl in Hday. assert (day = 738901) as -> by lia.
  intros Hin%list_elem_of_singleton. vm_compute in Hin. discriminate.
Defined.

(** X15. A range that ends on 9999-12-31, the last day that [datetime]
    has, never yields slots: after the last day the increment of
    [current_date] is out of range, so the enumerator raises (where an
    earlier step has not raised already). *)
Theorem last_day_overflows (request : TimetableRequest)
    (first last : Datetime.datetime) :
  Datetime.strptime_Ymd (start_date request) = Ok first →
  Datetime.strptime_Ymd (end_date request) = Ok last →
  Datetime.toordinal first ≤ Datetime.toordinal last →
  Datetime.toordinal last = Datetime._MAXORDINAL →
  ∃ e, _generate_time_slots request = Raise e.
Proof.
  intros Hfirst Hlast Hle Hmax.
  pose proof (generate_time_slots_fuel request) as Hfuel.
  destruct (_generate_time_slots request) as [rows|e|] eqn:Hrun; [|by exists e|done].
  exfalso. revert Hrun.
  unfold _generate_time_slots. rewrite Hfirst, Hlast. simpl.
  apply strptime_Ymd_midnight in Hfirst, Hlast.
  destruct first as [f mf], last as [l ml]. simpl in *. subst mf ml l.
  by apply (date_loop_overflow _ request f [] rows).
Qed.

Lemma last_day_overflows_witness :
  _generate_time_slots last_day_request
  = Raise (OverflowError "date value out of range")
  ∧ ∃ e, _generate_time_slots last_day_request = Raise e.
Proof.
  split; [vm_compute; reflexivity|].
  apply (last_day_overflows last_day_request
           (midnight Datetime._MAXORDINAL) (midnight Datetime._MAXORDINAL));
    [vm_compute; reflexivity|vm_compute; reflexivity|simpl; lia|reflexivity].
Defined.

(** X16. On a call that returns normally the conflict list holds the
    messages of the failed attempts, one each, in the order of the
    attempts, and nothing else: the number of conflicts is the number of
    attempts minus the number of reservations. *)
Theorem conflicts_are_failed_attempts (request : TimetableRequest) (store : Store)
    (σ : GenState) (timetable_slots : list TimetableSlot) :
  generate_timetable_body request store initial_state = (σ, Ok timetable_slots) →
  generate_timetable request store
  = Some (timetable_slots, omap conflict_of (attempts σ))
  ∧ (length (omap conflict_of (attempts σ)) + length (reservations σ)
     = length (attempts σ))%nat.
Proof.
  intros Hbody.
  pose proof (attempts_counted request store) as Hcount.
  assert (conflicts_logged σ) as Hlog.
  { pose proof (generate_timetable_body_run request store) as Hrun.
    rewrite Hbody in Hrun. simpl in Hrun.
    inversion Hrun as [|batches subjects teachers classrooms time_slots
                        Hb Hs Ht Hc Hts Hσ Hr].
    apply (batches_loop_invariant teachers classrooms time_slots conflicts_logged);
      [|done|done].
    intros b s a ts σ0 _ _ H0.
    eapply conflicts_logged_step; [exact H0|apply try_assign_step]. }
  rewrite Hbody in Hcount. simpl in Hcount. unfold conflicts_logged in Hlog.
  rewrite Hlog in Hcount. split; [|done].
  unfold generate_timetable. by rewrite Hbody, Hlog.
Qed.

Lemma conflicts_are_failed_attempts_witness :
  let σ := (generate_timetable_body sample_request sample_store initial_state).1 in
  generate_timetable sample_request sample_store
  = Some (flat_map fan_out (reservations σ), omap conflict_of (attempts σ))
  ∧ omap conflict_of (attempts σ)
    = ["No available teacher for Physics at 10:00 on Monday"]
  ∧ length (attempts σ) = 2%nat
  ∧ length (reservations σ) = 1%nat.
Proof.
  intros σ.
  destruct (conflicts_are_failed_attempts sample_request sample_store σ
              (flat_map fan_out (reservations σ)))
    as [Hcall Hcount]; [vm_compute; reflexivity|].
  split_and!; [exact Hcall|vm_compute; reflexivity|vm_compute; reflexivity
              |vm_compute; reflexivity].
Defined.
